(** * lunalist-update-service: the version cache and the version comparator

    A shallow embedding of [src/server/app.py]: the process-wide cache
    [_cache], the conditional fetch [_fetch_pubspec_from_github], the manifest
    parser [_parse_pubspec], the refresh [_refresh_cache], the two handlers
    [version] and [check], and the comparator's [parse_version].

    Conventions of the embedding.
    - A Python [str] is a [string] whose characters are code points below 256
      (the Latin-1 range); literals in this file are ASCII, other code points
      are written by number.
    - A Python [int] is a [Z]; [time.time()] is a rational [Q] (rounding of
      floats is not modelled), and [int(now)] truncates towards zero.
    - An exception is a value of [exn]; a call that may raise returns
      [exn + A].  Code that reads or writes [_cache] runs in the monad [M],
      in which writes made before an exception is raised persist, as they do
      in Python.
    - The libraries the service calls ([requests], [base64], [yaml]) are
      parameters of the model. *)

From Stdlib Require Import String Ascii List ZArith NArith QArith Bool Lia.
From Stdlib Require Import DecimalString DecimalPos.
Import ListNotations.
Local Open Scope string_scope.
Local Open Scope Z_scope.

(** ** Python string primitives *)

Module PyStr.

Definition code (c : ascii) : N := N_of_ascii c.

Definition between (lo hi n : N) : bool := ((lo <=? n) && (n <=? hi))%N.

(** [str.isspace] on one character: TAB..CR, FS..US, SPACE, NEL, NBSP. *)
Definition isspace_char (c : ascii) : bool :=
  between 9 13 (code c) || between 28 32 (code c)
  || (code c =? 133)%N || (code c =? 160)%N.

(** The characters [0]..[9]. *)
Definition isdecimal_char (c : ascii) : bool := between 48 57 (code c).

(** [str.isdigit] on one character: the decimal digits and the superscript
    digits U+00B2, U+00B3, U+00B9, which have a digit value but no decimal
    value. *)
Definition isdigit_char (c : ascii) : bool :=
  isdecimal_char c || (code c =? 178)%N || (code c =? 179)%N || (code c =? 185)%N.

Fixpoint all_chars (p : ascii -> bool) (s : string) : bool :=
  match s with
  | EmptyString => true
  | String c t => p c && all_chars p t
  end.

Definition nonempty (s : string) : bool :=
  match s with EmptyString => false | String _ _ => true end.

(** [s.isdigit()]: at least one character, all of them digits. *)
Definition isdigit (s : string) : bool := nonempty s && all_chars isdigit_char s.

(** At least one character, all of them among [0]..[9]. *)
Definition isdecimal (s : string) : bool := nonempty s && all_chars isdecimal_char s.

Fixpoint lstrip (s : string) : string :=
  match s with
  | EmptyString => EmptyString
  | String c t => if isspace_char c then lstrip t else s
  end.

Fixpoint rstrip (s : string) : string :=
  match s with
  | EmptyString => EmptyString
  | String c t =>
      match rstrip t with
      | EmptyString => if isspace_char c then EmptyString else String c EmptyString
      | t' => String c t'
      end
  end.

(** [s.strip()] *)
Definition strip (s : string) : string := rstrip (lstrip s).

(** [sep in s] and [s.split(sep, 1)] for a one-character separator:
    [None] when [sep] does not occur, otherwise the text before and the
    text after its first occurrence. *)
Fixpoint split1 (sep : ascii) (s : string) : option (string * string) :=
  match s with
  | EmptyString => None
  | String c t =>
      if Ascii.eqb c sep then Some (EmptyString, t)
      else match split1 sep t with
           | Some (a, b) => Some (String c a, b)
           | None => None
           end
  end.

(** [s.split(sep)] for a one-character separator. *)
Fixpoint split (sep : ascii) (s : string) : list string :=
  match s with
  | EmptyString => [EmptyString]
  | String c t =>
      if Ascii.eqb c sep then EmptyString :: split sep t
      else match split sep t with
           | h :: r => String c h :: r
           | [] => [String c EmptyString]
           end
  end.

(** The value of a string of decimal digits, most significant first. *)
Fixpoint decimal_value_from (acc : Z) (s : string) : Z :=
  match s with
  | EmptyString => acc
  | String c t => decimal_value_from (10 * acc + (Z.of_N (code c) - 48)) t
  end.

Definition decimal_value (s : string) : Z := decimal_value_from 0 s.

(** The number of characters [0]..[9] a string starts with. *)
Fixpoint decimal_prefix_length (s : string) : nat :=
  match s with
  | EmptyString => O
  | String c t => if isdecimal_char c then S (decimal_prefix_length t) else O
  end.

(** [sys.get_int_max_str_digits()], at the interpreter's default. *)
Definition int_max_str_digits : nat := 4300.

(** [str(n)] and [f"{n}"] for an integer of at most [int_max_str_digits]
    digits.  The service formats HTTP status codes only, which have three
    digits; beyond the limit the interpreter raises instead, which this
    function does not show. *)
Definition str_of_int (n : Z) : string := NilZero.string_of_int (Z.to_int n).

(** [s[:n]] *)
Definition prefix_slice (n : nat) (s : string) : string := substring 0 n s.

(** Truthiness of an [Optional[str]]: present and not empty. *)
Definition truthy (o : option string) : bool :=
  match o with Some s => nonempty s | None => false end.

(** [o or d] for an [Optional[str]]. *)
Definition or_else (o : option string) (d : string) : string :=
  match o with
  | Some s => if nonempty s then s else d
  | None => d
  end.

End PyStr.
Import PyStr.

(** ** Exceptions *)

Inductive exn : Type :=
| RuntimeError (msg : string)
| ValueError (msg : string)
| OtherException (msg : string).

(** [str(e)] *)
Definition str_exn (e : exn) : string :=
  match e with
  | RuntimeError m | ValueError m | OtherException m => m
  end.

Definition is_ValueError (e : exn) : bool :=
  match e with ValueError _ => true | _ => false end.

(** Calls that only compute and may raise. *)
Definition result (A : Type) : Type := (exn + A)%type.

Definition rbind {A B : Type} (r : result A) (k : A -> result B) : result B :=
  match r with
  | inl e => inl e
  | inr a => k a
  end.

(** [int(s)], as the service uses it: every call is guarded by
    [s.isdigit()], so [s] is a non-empty string of digit characters, whose
    [repr] is the string between single quotes.  On such a string [int]
    first counts the decimal digits it starts with and raises [ValueError]
    when they are more than [int_max_str_digits]; otherwise it returns the
    decimal value when every character is among [0]..[9], and raises
    [ValueError], quoting at most 200 characters of the [repr], when one is
    not. *)
Definition py_int (s : string) : result Z :=
  if (int_max_str_digits <? decimal_prefix_length s)%nat
  then inl (ValueError
              ("Exceeds the limit (" ++ str_of_int (Z.of_nat int_max_str_digits)
               ++ " digits) for integer string conversion: value has "
               ++ str_of_int (Z.of_nat (decimal_prefix_length s))
               ++ " digits; use sys.set_int_max_str_digits() to increase the limit"))
  else if isdecimal s then inr (decimal_value s)
  else inl (ValueError ("invalid literal for int() with base 10: "
                        ++ prefix_slice 200 ("'" ++ s ++ "'"))).

(** ** The comparator's parser: [check.parse_version] *)

Definition VersionTuple : Type := (Z * Z * Z * Z)%type.

Definition invalid_version_format (v : string) : exn :=
  ValueError ("Invalid version format: " ++ v ++ ". Expected e.g. 1.16.1+3").

Definition parse_version (v : string) : result VersionTuple :=
  let v := strip v in
  rbind
    (match split1 "+" v with
     | Some (version_part, build_part) =>
         let build_part := strip build_part in
         if isdigit build_part
         then rbind (py_int build_part) (fun build => inr (version_part, build))
         else inr (version_part, 0)
     | None => inr (v, 0)
     end)
    (fun '(version_part, build) =>
       let parts := map strip (split "." version_part) in
       if negb (length parts =? 3)%nat || negb (forallb isdigit parts)
       then inl (invalid_version_format v)
       else
         rbind (py_int (nth 0 parts EmptyString)) (fun major =>
         rbind (py_int (nth 1 parts EmptyString)) (fun minor =>
         rbind (py_int (nth 2 parts EmptyString)) (fun patch =>
         inr (major, minor, patch, build))))).

(** ** The cache

    [_cache] is a dict with eight fixed keys; it is modelled as a record with
    one field per key. *)

Module Cache.

Record t : Type := mk {
  expires_at : Q;
  version : option string;
  build : option Z;
  raw_version : option string;
  source : option string;
  etag : option string;
  last_checked_at : option Z;
  error : option string
}.

Definition set_expires_at (x : Q) (c : t) : t :=
  mk x (version c) (build c) (raw_version c) (source c) (etag c)
     (last_checked_at c) (error c).
Definition set_version (x : option string) (c : t) : t :=
  mk (expires_at c) x (build c) (raw_version c) (source c) (etag c)
     (last_checked_at c) (error c).
Definition set_build (x : option Z) (c : t) : t :=
  mk (expires_at c) (version c) x (raw_version c) (source c) (etag c)
     (last_checked_at c) (error c).
Definition set_raw_version (x : option string) (c : t) : t :=
  mk (expires_at c) (version c) (build c) x (source c) (etag c)
     (last_checked_at c) (error c).
Definition set_source (x : option string) (c : t) : t :=
  mk (expires_at c) (version c) (build c) (raw_version c) x (etag c)
     (last_checked_at c) (error c).
Definition set_etag (x : option string) (c : t) : t :=
  mk (expires_at c) (version c) (build c) (raw_version c) (source c) x
     (last_checked_at c) (error c).
Definition set_last_checked_at (x : option Z) (c : t) : t :=
  mk (expires_at c) (version c) (build c) (raw_version c) (source c) (etag c)
     x (error c).
Definition set_error (x : option string) (c : t) : t :=
  mk (expires_at c) (version c) (build c) (raw_version c) (source c) (etag c)
     (last_checked_at c) x.

End Cache.

(** The value [_cache] is initialised to. *)
Definition _cache : Cache.t :=
  Cache.mk 0%Q None None None None None None None.

(** [_cache.get("version")] used as a condition. *)
Definition version_cached (c : Cache.t) : bool := truthy (Cache.version c).

(** ** Time *)

(** [a < b] on timestamps. *)
Definition time_ltb (a b : Q) : bool :=
  (Qnum a * Z.pos (Qden b) <? Qnum b * Z.pos (Qden a))%Z.

(** [int(now)] *)
Definition int_of_time (now : Q) : Z := Z.quot (Qnum now) (Z.pos (Qden now)).

(** [now + n] for an integer number of seconds [n]: the exact sum, where the
    interpreter rounds to the nearest float (and raises [OverflowError] for
    an [n] no float can hold). *)
Definition time_add (now : Q) (n : Z) : Q := (now + inject_Z n)%Q.

(** ** The upstream interface *)

Record Request : Type := {
  url : string;
  headers : list (string * string);
  params : list (string * string);
  timeout : Z
}.

(** The JSON object of a contents response, as far as the service reads it:
    [payload.get("content")] and [payload.get("encoding")]. *)
Record Payload : Type := {
  content : option string;
  encoding : option string
}.

Record Response : Type := {
  status_code : Z;
  text : string;
  json : result Payload;           (* [r.json()] *)
  header_ETag : option string      (* [r.headers.get("ETag")] *)
}.

(** ** State and exceptions *)

Record World : Type := {
  w_cache : Cache.t;
  w_calls : list Request           (* the upstream requests issued so far *)
}.

Definition M (A : Type) : Type := World -> result A * World.

Definition ret {A : Type} (a : A) : M A := fun w => (inr a, w).

Definition bind {A B : Type} (m : M A) (k : A -> M B) : M B :=
  fun w => match m w with
           | (inl e, w') => (inl e, w')
           | (inr a, w') => k a w'
           end.

Definition raise {A : Type} (e : exn) : M A := fun w => (inl e, w).

Definition lift {A : Type} (r : result A) : M A := fun w => (r, w).

(** [try: body except Exception as e: handler(e)] *)
Definition try_except {A : Type} (body : M A) (handler : exn -> M A) : M A :=
  fun w => match body w with
           | (inl e, w') => handler e w'
           | (inr a, w') => (inr a, w')
           end.

Definition get_cache : M Cache.t := fun w => (inr (w_cache w), w).

(** [_cache[key] = x], with [f] the update of that key. *)
Definition set_cache (f : Cache.t -> Cache.t) : M unit :=
  fun w => (inr tt, {| w_cache := f (w_cache w); w_calls := w_calls w |}).

Declare Scope py_scope.
Delimit Scope py_scope with py.
Notation "x <- m ;; k" := (bind m (fun x => k))
  (at level 61, m at next level, right associativity) : py_scope.
Notation "m ;; k" := (bind m (fun _ => k))
  (at level 61, right associativity) : py_scope.
Local Open Scope py_scope.

(** ** JSON responses *)

Inductive json_value : Type :=
| JNull
| JBool (b : bool)
| JInt (n : Z)
| JStr (s : string).

Definition json_str (o : option string) : json_value :=
  match o with Some s => JStr s | None => JNull end.

Definition json_int (o : option Z) : json_value :=
  match o with Some n => JInt n | None => JNull end.

(** A handler's return value: the [jsonify]-ed object and the status. *)
Definition HttpResponse : Type := (list (string * json_value) * Z)%type.

Definition status (r : HttpResponse) : Z := snd r.
Definition body (r : HttpResponse) : list (string * json_value) := fst r.

(** ** Configuration: the module-level constants read from the environment *)

Record Config : Type := {
  GITHUB_OWNER : string;
  GITHUB_REPO : string;
  GITHUB_BRANCH : string;
  GITHUB_PUBSPEC_PATH : string;
  GITHUB_TOKEN : string;
  CACHE_TTL_SECONDS : Z
}.

(** ** The service *)

Section Service.

Variable cfg : Config.

(** [requests.get]: the answer of the upstream to the [n]-th request of the
    run (a response, or the exception the call raises). *)
Variable requests_get : nat -> Request -> result Response.

(** [base64.b64decode(content).decode("utf-8", errors="replace")] *)
Variable b64decode_utf8 : string -> result string.

(** [str(data.get("version", default))] for [data = yaml.safe_load(text) or {}]
    and the empty string as [default]: the text of the manifest's [version]
    field, the empty string when the document is empty or has no such key, or
    the exception raised on the way. *)
Variable yaml_version : string -> result string.

Definition _github_headers (etag : option string) : list (string * string) :=
  [("Accept", "application/vnd.github+json");
   ("User-Agent", "version-check-server")]
  ++ (if nonempty (GITHUB_TOKEN cfg)
      then [("Authorization", "Bearer " ++ GITHUB_TOKEN cfg)] else [])
  ++ (match etag with
      | Some e => if nonempty e then [("If-None-Match", e)] else []
      | None => []
      end).

Definition _repo_url : string :=
  "https://api.github.com/repos/" ++ GITHUB_OWNER cfg ++ "/" ++ GITHUB_REPO cfg
  ++ "/contents/" ++ GITHUB_PUBSPEC_PATH cfg.

Definition _parse_pubspec (pubspec_text : string)
  : result (string * option Z * string) :=
  rbind (yaml_version pubspec_text) (fun field =>
  let raw := strip field in
  if negb (nonempty raw)
  then inl (ValueError "No 'version' field found in pubspec.yaml")
  else
    match split1 "+" raw with
    | Some (v, b) =>
        let v := strip v in
        let b := strip b in
        rbind (if isdigit b
               then rbind (py_int b) (fun n => inr (Some n))
               else inr None)
              (fun build => inr (v, build, raw))
    | None => inr (raw, None, raw)
    end).

(** The dict returned by [_fetch_pubspec_from_github]. *)
Record Fetched : Type := {
  unchanged : bool;
  fetched_etag : option string;
  pubspec_text : option string
}.

(** The [requests.get] call: the request is appended to the log. *)
Definition http_get (req : Request) : M Response :=
  fun w => (requests_get (length (w_calls w)) req,
            {| w_cache := w_cache w; w_calls := w_calls w ++ [req] |}).

Definition _fetch_pubspec_from_github : M Fetched :=
  if negb (nonempty (GITHUB_OWNER cfg) && nonempty (GITHUB_REPO cfg)
           && nonempty (GITHUB_PUBSPEC_PATH cfg))
  then raise (RuntimeError "Missing GitHub configuration (owner/repo/path).")
  else
    let params := if nonempty (GITHUB_BRANCH cfg)
                  then [("ref", GITHUB_BRANCH cfg)] else [] in
    let url := _repo_url in
    c <- get_cache ;;
    let etag := Cache.etag c in
    r <- http_get {| url := url; headers := _github_headers etag;
                     params := params; timeout := 15 |} ;;
    c <- get_cache ;;
    if (status_code r =? 304) && version_cached c
    then ret {| unchanged := true; fetched_etag := etag; pubspec_text := None |}
    else if negb (status_code r =? 200)
    then raise (RuntimeError ("GitHub API error: " ++ str_of_int (status_code r)
                              ++ " - " ++ prefix_slice 300 (text r)))
    else
      payload <- lift (json r) ;;
      let content_b64 := content payload in
      if negb (match encoding payload with
               | Some e => String.eqb e "base64"
               | None => false
               end)
         || negb (truthy content_b64)
      then raise (RuntimeError
                    "Unexpected GitHub contents response (missing base64 content).")
      else
        pubspec_text <- lift (b64decode_utf8 (or_else content_b64 EmptyString)) ;;
        let new_etag := header_ETag r in
        ret {| unchanged := false; fetched_etag := new_etag;
               pubspec_text := Some pubspec_text |}.

(** [_refresh_cache(force)], with [now] the value [time.time()] returns at
    its first line. *)
Definition _refresh_cache (force : bool) (now : Q) : M unit :=
  c <- get_cache ;;
  if negb force && time_ltb now (Cache.expires_at c) && version_cached c
  then ret tt
  else
    try_except
      (fetched <- _fetch_pubspec_from_github ;;
       set_cache (Cache.set_last_checked_at (Some (int_of_time now))) ;;
       set_cache (Cache.set_error None) ;;
       (if unchanged fetched
        then set_cache (Cache.set_source (Some "github(etag-cache)"))
        else
          parsed <- lift (match pubspec_text fetched with
                          | Some t => _parse_pubspec t
                          | None => inl (OtherException "pubspec_text is None")
                          end) ;;
          let '(v, build, raw) := parsed in
          set_cache (Cache.set_version (Some v)) ;;
          set_cache (Cache.set_build build) ;;
          set_cache (Cache.set_raw_version (Some raw)) ;;
          set_cache (Cache.set_etag (fetched_etag fetched)) ;;
          set_cache (Cache.set_source (Some "github"))) ;;
       set_cache (Cache.set_expires_at (time_add now (CACHE_TTL_SECONDS cfg))))
      (fun e =>
         set_cache (Cache.set_error (Some (str_exn e))) ;;
         set_cache (Cache.set_last_checked_at (Some (int_of_time now))) ;;
         set_cache (Cache.set_expires_at
                      (time_add now (Z.min (CACHE_TTL_SECONDS cfg) 30)))).

(** [GET /health] *)
Definition health : M HttpResponse := ret ([("ok", JBool true)], 200).

(** [GET /version]; [force_arg] is the [force] query parameter, if given. *)
Definition version (force_arg : option string) (now : Q) : M HttpResponse :=
  let force := String.eqb (match force_arg with Some s => s | None => "0" end) "1" in
  _refresh_cache force now ;;
  c <- get_cache ;;
  if negb (version_cached c)
  then ret ([("ok", JBool false);
             ("error", JStr (or_else (Cache.error c) "unknown"));
             ("last_checked_at", json_int (Cache.last_checked_at c))], 502)
  else ret ([("ok", JBool true);
             ("version", json_str (Cache.version c));
             ("build", json_int (Cache.build c));
             ("raw", json_str (Cache.raw_version c));
             ("source", json_str (Cache.source c));
             ("last_checked_at", json_int (Cache.last_checked_at c));
             ("cache_ttl_seconds", JInt (CACHE_TTL_SECONDS cfg));
             ("error", json_str (Cache.error c))], 200).

(** Comparison of two tuples of integers, as Python compares sequences:
    the first position where they differ decides, and a proper prefix is
    smaller. *)
Fixpoint tuple_ltb (a b : list Z) : bool :=
  match a, b with
  | [], [] => false
  | [], _ :: _ => true
  | _ :: _, [] => false
  | x :: a', y :: b' => if x =? y then tuple_ltb a' b' else x <? y
  end.

Definition tuple_gtb (a b : list Z) : bool := tuple_ltb b a.

(** [t[:3]] and [t[3]] of a parsed version. *)
Definition first3 (t : VersionTuple) : list Z :=
  let '(major, minor, patch, _) := t in [major; minor; patch].
Definition item3 (t : VersionTuple) : Z :=
  let '(_, _, _, build) := t in build.

(** The [if]/[elif]/[else] of [check] that sets [update_available]. *)
Definition update_available (lat cur : VersionTuple) : bool :=
  if tuple_gtb (first3 lat) (first3 cur) then true
  else if tuple_ltb (first3 lat) (first3 cur) then false
  else item3 lat >? item3 cur.

(** [GET /check]; [current_arg] is the [current] query parameter, if given. *)
Definition check (current_arg : option string) (now : Q) : M HttpResponse :=
  let current := strip (or_else current_arg EmptyString) in
  if negb (nonempty current)
  then ret ([("ok", JBool false);
             ("error", JStr "Missing 'current' query param")], 400)
  else
    _refresh_cache false now ;;
    c <- get_cache ;;
    let latest_raw := Cache.raw_version c in
    if negb (truthy latest_raw)
    then ret ([("ok", JBool false);
               ("error", JStr (or_else (Cache.error c) "unknown"))], 502)
    else
      let latest_raw := or_else latest_raw EmptyString in
      match rbind (parse_version current) (fun cur =>
            rbind (parse_version latest_raw) (fun lat =>
            inr (update_available lat cur)))
      with
      | inr update_available =>
          ret ([("ok", JBool true);
                ("update_available", JBool update_available);
                ("current", JStr current);
                ("latest", JStr latest_raw)], 200)
      | inl e =>
          if is_ValueError e
          then ret ([("ok", JBool false); ("error", JStr (str_exn e))], 400)
          else raise e
      end.

End Service.

(** ** The specification's wording of the comparator

    These definitions follow the text of the specification, not the code;
    the theorems below compare them with [parse_version] and
    [update_available]. *)

(** "build = integer value of build_part if build_part is entirely decimal
    digits, else 0" *)
Definition spec_build (build_part : option string) : Z :=
  match build_part with
  | Some b => if isdecimal b then decimal_value b else 0
  | None => 0
  end.

(** "require exactly 3 components, each entirely decimal digits" *)
Definition spec_components (components : list string) : option (Z * Z * Z) :=
  match components with
  | [a; b; c] =>
      if isdecimal a && isdecimal b && isdecimal c
      then Some (decimal_value a, decimal_value b, decimal_value c)
      else None
  | _ => None
  end.

(** The text before the first [+] of a stripped string, or all of it. *)
Definition version_part_of (v : string) : string :=
  match split1 "+" v with Some (a, _) => a | None => v end.

(** The text after the first [+] of a stripped string, if there is one. *)
Definition build_part_of (v : string) : option string :=
  match split1 "+" v with Some (_, b) => Some b | None => None end.

(** [parse] as the specification words it: strip, split at the first [+],
    split the version part on [.]; [None] stands for InvalidVersionFormat. *)
Definition spec_parse (raw : string) : option VersionTuple :=
  let v := strip raw in
  match spec_components (split "." (version_part_of v)) with
  | Some (major, minor, patch) =>
      Some (major, minor, patch, spec_build (build_part_of v))
  | None => None
  end.

(** The same, with the build part and every component stripped of
    surrounding whitespace before they are examined. *)
Definition spec_parse_stripped (raw : string) : option VersionTuple :=
  let v := strip raw in
  match spec_components (map strip (split "." (version_part_of v))) with
  | Some (major, minor, patch) =>
      Some (major, minor, patch, spec_build (option_map strip (build_part_of v)))
  | None => None
  end.

(** The strings [parse_version] may hand to [int]: the stripped build part
    and the stripped components. *)
Definition int_candidates (raw : string) : list string :=
  let v := strip raw in
  match build_part_of v with Some b => [strip b] | None => [] end
  ++ map strip (split "." (version_part_of v)).

(** A string that [int] converts whenever [isdigit] accepts it: it is then
    entirely [0]..[9] and no longer than [int_max_str_digits]. *)
Definition plain_digits (t : string) : Prop :=
  isdigit t = true ->
  isdecimal t = true /\ (String.length t <= int_max_str_digits)%nat.

(** [compare] as the specification words it: [(major, minor, patch)]
    lexicographically, then the build number. *)
Definition compare (a b : VersionTuple) : comparison :=
  let '(a1, a2, a3, a4) := a in
  let '(b1, b2, b3, b4) := b in
  match a1 ?= b1 with
  | Eq => match a2 ?= b2 with
          | Eq => match a3 ?= b3 with
                  | Eq => a4 ?= b4
                  | c => c
                  end
          | c => c
          end
  | c => c
  end.

Definition is_Gt (c : comparison) : bool :=
  match c with Gt => true | _ => false end.

(** [compare(parse(a), parse(b))] *)
Definition compare_parsed (a b : string) : result comparison :=
  rbind (parse_version a) (fun x =>
  rbind (parse_version b) (fun y => inr (compare x y))).

(** ** Summaries of the effects of a refresh

    What [_fetch_pubspec_from_github] sends and what the three outcomes of
    [_refresh_cache] leave in the cache; the lemmas below show that the code
    computes exactly these. *)

(** The condition of the first [if] of [_fetch_pubspec_from_github]. *)
Definition config_ok (cfg : Config) : bool :=
  nonempty (GITHUB_OWNER cfg) && nonempty (GITHUB_REPO cfg)
  && nonempty (GITHUB_PUBSPEC_PATH cfg).

(** The request sent when the cache is [c]. *)
Definition fetch_request (cfg : Config) (c : Cache.t) : Request := {|
  url := _repo_url cfg;
  headers := _github_headers cfg (Cache.etag c);
  params := if nonempty (GITHUB_BRANCH cfg) then [("ref", GITHUB_BRANCH cfg)] else [];
  timeout := 15
|}.

(** The condition under which [_refresh_cache] returns at once. *)
Definition cache_hit (force : bool) (now : Q) (c : Cache.t) : bool :=
  negb force && time_ltb now (Cache.expires_at c) && version_cached c.

Definition after_failure (cfg : Config) (e : exn) (now : Q) (c : Cache.t) : Cache.t :=
  Cache.mk (time_add now (Z.min (CACHE_TTL_SECONDS cfg) 30))
           (Cache.version c) (Cache.build c) (Cache.raw_version c)
           (Cache.source c) (Cache.etag c)
           (Some (int_of_time now)) (Some (str_exn e)).

Definition after_unchanged (cfg : Config) (now : Q) (c : Cache.t) : Cache.t :=
  Cache.mk (time_add now (CACHE_TTL_SECONDS cfg))
           (Cache.version c) (Cache.build c) (Cache.raw_version c)
           (Some "github(etag-cache)") (Cache.etag c)
           (Some (int_of_time now)) None.

Definition after_stored (cfg : Config) (now : Q)
    (v : string) (build : option Z) (raw : string) (etag : option string) : Cache.t :=
  Cache.mk (time_add now (CACHE_TTL_SECONDS cfg))
           (Some v) build (Some raw) (Some "github") etag
           (Some (int_of_time now)) None.

Definition with_cache (c : Cache.t) (w : World) : World :=
  {| w_cache := c; w_calls := w_calls w |}.

(** The world once the request of a fetch has been sent. *)
Definition after_request (cfg : Config) (w : World) : World :=
  {| w_cache := w_cache w;
     w_calls := w_calls w ++ [fetch_request cfg (w_cache w)] |}.

(** The upstream's answer to the request of a fetch started in [w]. *)
Definition upstream_answer (cfg : Config)
    (requests_get : nat -> Request -> result Response) (w : World) : result Response :=
  requests_get (length (w_calls w)) (fetch_request cfg (w_cache w)).

(** The message of the error raised for a status other than 200. *)
Definition api_error (r : Response) : exn :=
  RuntimeError ("GitHub API error: " ++ str_of_int (status_code r)
                ++ " - " ++ prefix_slice 300 (text r)).

(** The manifest parse of [_refresh_cache], on the text the fetch returned. *)
Definition parse_fetched (yaml_version : string -> result string) (f : Fetched)
  : result (string * option Z * string) :=
  match pubspec_text f with
  | Some t => _parse_pubspec yaml_version t
  | None => inl (OtherException "pubspec_text is None")
  end.

(** A refresh whose fetch raises [e], or whose fetch returns new content on
    which the manifest parse raises [e]. *)
Definition refresh_fails (cfg : Config)
    (requests_get : nat -> Request -> result Response)
    (b64decode_utf8 yaml_version : string -> result string)
    (w : World) (e : exn) : Prop :=
  fst (_fetch_pubspec_from_github cfg requests_get b64decode_utf8 w) = inl e
  \/ exists f t,
       fst (_fetch_pubspec_from_github cfg requests_get b64decode_utf8 w) = inr f
       /\ unchanged f = false
       /\ pubspec_text f = Some t
       /\ _parse_pubspec yaml_version t = inl e.

(** The [force] flag of [GET /version]. *)
Definition force_flag (force_arg : option string) : bool :=
  String.eqb (match force_arg with Some s => s | None => "0" end) "1".

(** ** A concrete deployment, for the examples *)

Module Demo.

Definition cfg : Config := {|
  GITHUB_OWNER := "Lmntrixpy";
  GITHUB_REPO := "lunalist";
  GITHUB_BRANCH := "main";
  GITHUB_PUBSPEC_PATH := "pubspec.yaml";
  GITHUB_TOKEN := EmptyString;
  CACHE_TTL_SECONDS := 60
|}.

Definition nl : string := String "010"%char EmptyString.

(** The superscript two, U+00B2. *)
Definition sup2 : string := String "178"%char EmptyString.

Definition lookup (table : list (string * string)) (k : string) : option string :=
  match find (fun kv => String.eqb (fst kv) k) table with
  | Some kv => Some (snd kv)
  | None => None
  end.

(** The library calls at the contents and manifests used below: what
    [base64] decodes them to and what PyYAML reads as their [version]. *)
Definition b64decode_utf8 (s : string) : result string :=
  match lookup [("dmVyc2lvbjogMS4xNi4xKzMK", "version: 1.16.1+3" ++ nl);
                ("dmVyc2lvbjogMS4yLjMuNAo=", "version: 1.2.3.4" ++ nl);
                ("bmFtZTogbHVuYWxpc3QK", "name: lunalist" ++ nl);
                ("dmVyc2lvbjogJys1Jwo=", "version: '+5'" ++ nl);
                ("dmVyc2lvbjogMS4yLjMrYmV0YQo=", "version: 1.2.3+beta" ++ nl)] s with
  | Some t => inr t
  | None => inl (OtherException "Incorrect padding")
  end.

Definition yaml_version (t : string) : result string :=
  match lookup [("version: 1.16.1+3" ++ nl, "1.16.1+3");
                ("version: 1.2.3.4" ++ nl, "1.2.3.4");
                ("version: 1.2.3+ 45" ++ nl, "1.2.3+ 45");
                ("name: lunalist" ++ nl, EmptyString);
                ("version: '+5'" ++ nl, "+5");
                ("version: 1.2.3+beta" ++ nl, "1.2.3+beta")] t with
  | Some v => inr v
  | None => inl (OtherException "could not parse the manifest")
  end.

Definition ok_response (content_b64 etag : string) : Response := {|
  status_code := 200;
  text := EmptyString;
  json := inr {| content := Some content_b64; encoding := Some "base64" |};
  header_ETag := Some etag
|}.

Definition status_response (code : Z) (txt : string) : Response := {|
  status_code := code;
  text := txt;
  json := inl (ValueError "Expecting value: line 1 column 1 (char 0)");
  header_ETag := None
|}.

(** An upstream that gives the same answer to every request. *)
Definition always (r : result Response) : nat -> Request -> result Response :=
  fun _ _ => r.

(** An upstream that is never reached. *)
Definition offline : nat -> Request -> result Response :=
  always (inl (OtherException "connection refused")).

(** A cache populated at time 1000 from the manifest [version: 1.16.1+3]. *)
Definition populated : Cache.t :=
  Cache.mk 1060 (Some "1.16.1") (Some 3) (Some "1.16.1+3") (Some "github")
           (Some "W/abc") (Some 1000) None.

(** A cache populated at time 1000 from the manifest [version: 1.2.3.4]. *)
Definition populated_bad : Cache.t :=
  Cache.mk 1060 (Some "1.2.3.4") None (Some "1.2.3.4") (Some "github")
           (Some "W/def") (Some 1000) None.

Definition world (c : Cache.t) : World := {| w_cache := c; w_calls := [] |}.

End Demo.

(** ** Refreshes that overlap

    [_refresh_cache] takes no lock.  Its first statement, the guard, reads
    the cache; a trigger that does not return there goes on to the [try]
    statement, which is what a forced refresh runs.  Under a server that
    handles requests in threads, several triggers may all evaluate their
    guard before any of them has written its result. *)




(** ** Vocabulary of the further properties *)

(** [f"{major}.{minor}.{patch}"] and [f"{major}.{minor}.{patch}+{build}"]:
    the two shapes of version string the service is written for. *)
Definition version_string3 (major minor patch : Z) : string :=
  str_of_int major ++ "." ++ str_of_int minor ++ "." ++ str_of_int patch.

Definition version_string (major minor patch build : Z) : string :=
  version_string3 major minor patch ++ "+" ++ str_of_int build.

(** A string of whitespace only (possibly empty). *)
Definition blank (s : string) : bool := all_chars isspace_char s.

(** The build [_parse_pubspec] returns with the raw string [raw], when it
    returns. *)
Definition manifest_build (raw : string) : option Z :=
  match build_part_of raw with
  | Some b => if isdecimal (strip b) then Some (decimal_value (strip b)) else None
  | None => None
  end.

(** How the version fields of the cache hang together: either nothing was
    ever stored, or [raw_version] is a non-empty stripped string and
    [version] and [build] are what [_parse_pubspec] derives from it. *)
Definition cache_consistent (c : Cache.t) : Prop :=
  match Cache.raw_version c with
  | None =>
      Cache.version c = None /\ Cache.build c = None
      /\ Cache.etag c = None /\ Cache.source c = None
  | Some raw =>
      nonempty raw = true
      /\ strip raw = raw
      /\ Cache.version c = Some (strip (version_part_of raw))
      /\ Cache.build c = manifest_build raw
      /\ (Cache.source c = Some "github"
          \/ Cache.source c = Some "github(etag-cache)")
  end.

(** The process at start-up: the initial cache, no request sent. *)
Definition initial_world : World := {| w_cache := _cache; w_calls := [] |}.

(** The worlds a deployment can be in: the start-up world, and the world
    after any of the three handlers has run in such a world, with any query
    parameter and at any time. *)
Inductive reachable (cfg : Config)
    (requests_get : nat -> Request -> result Response)
    (b64decode_utf8 yaml_version : string -> result string) : World -> Prop :=
| reachable_start :
    reachable cfg requests_get b64decode_utf8 yaml_version initial_world
| reachable_health (w : World) :
    reachable cfg requests_get b64decode_utf8 yaml_version w ->
    reachable cfg requests_get b64decode_utf8 yaml_version (snd (health w))
| reachable_version (w : World) (force_arg : option string) (now : Q) :
    reachable cfg requests_get b64decode_utf8 yaml_version w ->
    reachable cfg requests_get b64decode_utf8 yaml_version
      (snd (version cfg requests_get b64decode_utf8 yaml_version force_arg now w))
| reachable_check (w : World) (current_arg : option string) (now : Q) :
    reachable cfg requests_get b64decode_utf8 yaml_version w ->
    reachable cfg requests_get b64decode_utf8 yaml_version
      (snd (check cfg requests_get b64decode_utf8 yaml_version current_arg now w)).

(** A deployment whose owner was left unset, and an upstream serving the
    manifest [version: 1.16.1+3] with the etag [W/abc]. *)
Definition unconfigured : Config := {|
  GITHUB_OWNER := EmptyString;
  GITHUB_REPO := "lunalist";
  GITHUB_BRANCH := "main";
  GITHUB_PUBSPEC_PATH := "pubspec.yaml";
  GITHUB_TOKEN := EmptyString;
  CACHE_TTL_SECONDS := 60
|}.

Definition serving_1_16_1 : nat -> Request -> result Response :=
  Demo.always (inr (Demo.ok_response "dmVyc2lvbjogMS4xNi4xKzMK" "W/abc")).

(** The world after a first [GET /version] at time 1000 against that
    upstream. *)
Definition world_at_1000 : World :=
  snd (version Demo.cfg serving_1_16_1 Demo.b64decode_utf8 Demo.yaml_version
         None 1000 initial_world).

(** The status of a handler's answer, when it answers. *)
Definition status_of (r : result HttpResponse) : option Z :=
  match r with inr resp => Some (status resp) | inl _ => None end.

(** The value of a header in the dict [_github_headers] returns. *)
Definition header (name : string) (hs : list (string * string)) : option string :=
  match find (fun kv => String.eqb (fst kv) name) hs with
  | Some kv => Some (snd kv)
  | None => None
  end.

(** * Properties *)

(** ** Strings *)

Lemma isdecimal_char_isdigit_char (c : ascii) :
  isdecimal_char c = true -> isdigit_char c = true.
Proof. unfold isdigit_char. intros ->. reflexivity. Qed.

Lemma all_chars_impl (p q : ascii -> bool) (s : string) :
  (forall c, p c = true -> q c = true) ->
  all_chars p s = true -> all_chars q s = true.
Proof.
  intros Hpq. induction s as [|c t IH]; simpl; [reflexivity|].
  rewrite !andb_true_iff. intros [Hc Ht]. auto.
Qed.

Lemma isdecimal_isdigit (s : string) : isdecimal s = true -> isdigit s = true.
Proof.
  unfold isdecimal, isdigit. rewrite !andb_true_iff. intros [Hn Ha].
  split; [exact Hn|].
  exact (all_chars_impl _ _ s isdecimal_char_isdigit_char Ha).
Qed.

Lemma not_isdigit_not_isdecimal (s : string) :
  isdigit s = false -> isdecimal s = false.
Proof.
  intros H. destruct (isdecimal s) eqn:E; [|reflexivity].
  apply isdecimal_isdigit in E. congruence.
Qed.

Lemma decimal_prefix_length_decimal (s : string) :
  all_chars isdecimal_char s = true -> decimal_prefix_length s = String.length s.
Proof.
  induction s as [|c t IH]; cbn [all_chars decimal_prefix_length String.length];
    [reflexivity|].
  rewrite andb_true_iff. intros [-> Ht]. rewrite (IH Ht). reflexivity.
Qed.

Lemma py_int_decimal (s : string) :
  isdecimal s = true ->
  (String.length s <= int_max_str_digits)%nat ->
  py_int s = inr (decimal_value s).
Proof.
  intros Hd Hl. unfold py_int. rewrite Hd.
  unfold isdecimal in Hd. apply andb_true_iff in Hd. destruct Hd as [_ Hd].
  rewrite (decimal_prefix_length_decimal s Hd).
  destruct (Nat.ltb_spec int_max_str_digits (String.length s)); [lia|reflexivity].
Qed.

Lemma rstrip_nonspace (c : ascii) (t : string) :
  isspace_char c = false -> rstrip (String c t) = String c (rstrip t).
Proof. intros H. cbn [rstrip]. rewrite H. destruct (rstrip t); reflexivity. Qed.

Lemma rstrip_idempotent (s : string) : rstrip (rstrip s) = rstrip s.
Proof.
  induction s as [|c t IH]; [reflexivity|].
  cbn [rstrip]. destruct (rstrip t) as [|d r] eqn:E.
  - destruct (isspace_char c) eqn:Ec; [reflexivity|].
    cbn [rstrip]. rewrite Ec. reflexivity.
  - change (rstrip (String c (String d r)))
      with (match rstrip (String d r) with
            | EmptyString => if isspace_char c then EmptyString
                             else String c EmptyString
            | String a t' => String c (String a t')
            end).
    rewrite IH. reflexivity.
Qed.

Lemma lstrip_head (s : string) :
  lstrip s = EmptyString
  \/ exists c t, lstrip s = String c t /\ isspace_char c = false.
Proof.
  induction s as [|c t IH]; [left; reflexivity|].
  cbn [lstrip]. destruct (isspace_char c) eqn:Ec; [exact IH|].
  right. exists c, t. split; [reflexivity | exact Ec].
Qed.

Lemma strip_idempotent (s : string) : strip (strip s) = strip s.
Proof.
  unfold strip. destruct (lstrip_head s) as [-> | (c & t & -> & Hc)];
    [reflexivity|].
  rewrite (rstrip_nonspace c t Hc). cbn [lstrip]. rewrite Hc.
  rewrite (rstrip_nonspace c _ Hc), rstrip_idempotent. reflexivity.
Qed.

(** ** The comparator's parser *)

(** The second half of [parse_version], on the stripped components. *)
Lemma parse_components_spec (v : string) (parts : list string) (build : Z) :
  Forall plain_digits parts ->
  (if negb (length parts =? 3)%nat || negb (forallb isdigit parts)
   then inl (invalid_version_format v)
   else
     rbind (py_int (nth 0 parts EmptyString)) (fun major =>
     rbind (py_int (nth 1 parts EmptyString)) (fun minor =>
     rbind (py_int (nth 2 parts EmptyString)) (fun patch =>
     inr (major, minor, patch, build)))))
  = match spec_components parts with
    | Some (major, minor, patch) => inr (major, minor, patch, build)
    | None => inl (invalid_version_format v)
    end.
Proof.
  intros Hplain.
  destruct parts as [|p0 [|p1 [|p2 [|p3 rest]]]]; try reflexivity.
  inversion Hplain as [|? ? H0 Hplain1]; subst.
  inversion Hplain1 as [|? ? H1 Hplain2]; subst.
  inversion Hplain2 as [|? ? H2 _]; subst.
  unfold plain_digits in H0, H1, H2.
  cbn [length Nat.eqb negb orb forallb nth spec_components].
  destruct (isdigit p0) eqn:E0; cbn [andb negb].
  2:{ rewrite (not_isdigit_not_isdecimal _ E0). reflexivity. }
  destruct (isdigit p1) eqn:E1; cbn [andb negb].
  2:{ rewrite (not_isdigit_not_isdecimal _ E1), andb_false_r. reflexivity. }
  destruct (isdigit p2) eqn:E2; cbn [andb negb].
  2:{ rewrite (not_isdigit_not_isdecimal _ E2), andb_false_r. reflexivity. }
  destruct (H0 eq_refl) as [D0 L0], (H1 eq_refl) as [D1 L1],
    (H2 eq_refl) as [D2 L2].
  rewrite D0, D1, D2.
  rewrite !py_int_decimal by assumption. reflexivity.
Qed.

(** The first half of [parse_version], on the stripped build part. *)
Lemma parse_build_spec (b : string) :
  plain_digits b ->
  (if isdigit b then py_int b else inr 0) = inr (spec_build (Some b)).
Proof.
  unfold plain_digits, spec_build. intros Hplain.
  destruct (isdigit b) eqn:E.
  - destruct (Hplain eq_refl) as [Hd Hl]. rewrite Hd.
    apply py_int_decimal; assumption.
  - rewrite (not_isdigit_not_isdecimal _ E). reflexivity.
Qed.

Lemma parse_version_plain (raw : string) :
  Forall plain_digits (int_candidates raw) ->
  parse_version raw =
  match spec_parse_stripped raw with
  | Some t => inr t
  | None => inl (invalid_version_format (strip raw))
  end.
Proof.
  unfold int_candidates, parse_version, spec_parse_stripped,
    version_part_of, build_part_of.
  destruct (split1 "+" (strip raw)) as [[vp bp]|]; cbn [app option_map].
  - intros H. inversion H as [|? ? Hb Hparts]; subst.
    pose proof (parse_build_spec _ Hb) as Hbuild.
    destruct (isdigit (strip bp)).
    + rewrite Hbuild. cbn [rbind].
      rewrite (parse_components_spec _ _ _ Hparts).
      destruct (spec_components _) as [[[? ?] ?]|]; reflexivity.
    + replace (spec_build (Some (strip bp))) with 0 by congruence. cbn [rbind].
      rewrite (parse_components_spec _ _ _ Hparts).
      destruct (spec_components _) as [[[? ?] ?]|]; reflexivity.
  - intros Hparts. cbn [rbind].
    rewrite (parse_components_spec _ _ _ Hparts).
    destruct (spec_components _) as [[[? ?] ?]|]; reflexivity.
Qed.

(** C2, as amended.  For every input string in which no stripped component
    and no stripped build part is a run of digit characters that [int]
    refuses (one containing a digit character outside [0]..[9], or one of
    more than [int_max_str_digits] characters), [parse_version] strips
    surrounding whitespace, splits at the first [+], strips the build part
    and every [.]-separated component, takes as build the decimal value of
    the stripped build part when it is entirely decimal digits and 0
    otherwise (also when there is no [+]), and requires exactly three
    components, each entirely decimal digits after stripping; otherwise it
    raises the ValueError "Invalid version format".  The five examples of the
    specification hold. *)
Theorem C2_parse_version_stripped :
  (forall raw : string,
      Forall plain_digits (int_candidates raw) ->
      parse_version raw =
      match spec_parse_stripped raw with
      | Some t => inr t
      | None => inl (invalid_version_format (strip raw))
      end)
  /\ parse_version "1.2.3+45" = inr (1, 2, 3, 45)
  /\ parse_version "1.2.3" = inr (1, 2, 3, 0)
  /\ parse_version "1.2" = inl (invalid_version_format "1.2")
  /\ parse_version "1.2.3.4" = inl (invalid_version_format "1.2.3.4")
  /\ parse_version "a.b.c" = inl (invalid_version_format "a.b.c").
Proof.
  split; [exact parse_version_plain|].
  repeat split; reflexivity.
Qed.

Lemma C2_parse_version_stripped_witness :
  Forall plain_digits (int_candidates " 1.16.1 + 3 ")
  /\ parse_version " 1.16.1 + 3 " = inr (1, 16, 1, 3).
Proof.
  assert (H : Forall plain_digits (int_candidates " 1.16.1 + 3 ")).
  { repeat constructor; intros _;
      (split; [reflexivity | apply Nat.leb_le; reflexivity]). }
  split; [exact H|].
  exact (proj1 C2_parse_version_stripped " 1.16.1 + 3 " H).
Defined.

(** C2 as stated fails: the build part of ["1.2.3+ 45"] is [" 45"], which is
    not entirely decimal digits, yet the build is 45 and not 0; and the
    components of ["1 . 2 . 3"] are not entirely decimal digits, yet the
    string is accepted. *)
Lemma C2_counterexample :
  build_part_of (strip "1.2.3+ 45") = Some " 45"
  /\ isdecimal " 45" = false
  /\ spec_parse "1.2.3+ 45" = Some (1, 2, 3, 0)
  /\ parse_version "1.2.3+ 45" = inr (1, 2, 3, 45)
  /\ spec_parse "1 . 2 . 3" = None
  /\ parse_version "1 . 2 . 3" = inr (1, 2, 3, 0).
Proof. repeat split; reflexivity. Qed.

(** Where the amended statement is silent: a build part that [isdigit]
    accepts and [int] rejects makes the whole parse fail. *)
Lemma parse_version_superscript_build :
  parse_version ("1.2.3+" ++ Demo.sup2)
  = inl (ValueError ("invalid literal for int() with base 10: '" ++ Demo.sup2 ++ "'")).
Proof. reflexivity. Qed.

(** ** The order on versions *)

Lemma update_available_compare (lat cur : VersionTuple) :
  update_available lat cur = is_Gt (compare lat cur).
Proof.
  destruct lat as [[[a1 a2] a3] a4], cur as [[[b1 b2] b3] b4].
  unfold update_available, tuple_gtb, first3, item3, compare, is_Gt.
  cbn [tuple_ltb].
  rewrite Z.gtb_ltb.
  repeat match goal with
         | |- context [Z.eqb ?x ?y] => destruct (Z.eqb_spec x y)
         | |- context [Z.ltb ?x ?y] => destruct (Z.ltb_spec x y)
         | |- context [Z.compare ?x ?y] => destruct (Z.compare_spec x y)
         end; try reflexivity; lia.
Qed.

Lemma parse_version_raises_ValueError (s : string) (e : exn) :
  parse_version s = inl e -> is_ValueError e = true.
Proof.
  unfold parse_version.
  set (v := strip s).
  assert (Hint : forall t e', py_int t = inl e' -> is_ValueError e' = true).
  { unfold py_int. intros t e'.
    destruct (_ <? _)%nat; [intros [= <-]; reflexivity|].
    destruct (isdecimal t); [discriminate|].
    intros [= <-]. reflexivity. }
  assert (Hrest : forall vp build,
    (let parts := map strip (split "." vp) in
       if negb (length parts =? 3)%nat || negb (forallb isdigit parts)
       then inl (invalid_version_format v)
       else
         rbind (py_int (nth 0 parts EmptyString)) (fun major =>
         rbind (py_int (nth 1 parts EmptyString)) (fun minor =>
         rbind (py_int (nth 2 parts EmptyString)) (fun patch =>
         inr (major, minor, patch, build))))) = (inl e : result VersionTuple) ->
    is_ValueError e = true).
  { intros vp build. cbv zeta.
    destruct (negb _ || negb _); [intros [= <-]; reflexivity|].
    destruct (py_int (nth 0 _ EmptyString)) eqn:E0; cbn [rbind];
      [intros [= <-]; eauto|].
    destruct (py_int (nth 1 _ EmptyString)) eqn:E1; cbn [rbind];
      [intros [= <-]; eauto|].
    destruct (py_int (nth 2 _ EmptyString)) eqn:E2; cbn [rbind];
      [intros [= <-]; eauto|discriminate]. }
  destruct (split1 "+" v) as [[vp bp]|]; cbn [rbind].
  - destruct (isdigit (strip bp)).
    + destruct (py_int (strip bp)) eqn:Eb; cbn [rbind].
      * intros [= <-]. eauto.
      * apply Hrest.
    + cbn [rbind]. apply Hrest.
  - apply Hrest.
Qed.

(** ** The fetch and the refresh *)

Section ServiceProperties.

Variable cfg : Config.
Variable requests_get : nat -> Request -> result Response.
Variable b64decode_utf8 : string -> result string.
Variable yaml_version : string -> result string.

Local Notation "'fetch'" := (_fetch_pubspec_from_github cfg requests_get b64decode_utf8).
Local Notation "'refresh'" := (_refresh_cache cfg requests_get b64decode_utf8 yaml_version).
Local Notation "'answer'" := (upstream_answer cfg requests_get).

Lemma fetch_config_missing (w : World) :
  config_ok cfg = false ->
  fetch w = (inl (RuntimeError "Missing GitHub configuration (owner/repo/path)."), w).
Proof.
  unfold config_ok, _fetch_pubspec_from_github. intros ->. reflexivity.
Qed.

(** With the configuration present, the fetch sends one request and its
    result is decided by the answer. *)
Lemma fetch_configured (w : World) :
  config_ok cfg = true ->
  fetch w =
  (match answer w with
   | inl e => inl e
   | inr r =>
       if (status_code r =? 304) && version_cached (w_cache w)
       then inr {| unchanged := true; fetched_etag := Cache.etag (w_cache w);
                   pubspec_text := None |}
       else if negb (status_code r =? 200) then inl (api_error r)
       else
         match json r with
         | inl e => inl e
         | inr payload =>
             if negb (match encoding payload with
                      | Some e => String.eqb e "base64"
                      | None => false
                      end)
                || negb (truthy (content payload))
             then inl (RuntimeError
                         "Unexpected GitHub contents response (missing base64 content).")
             else
               match b64decode_utf8 (or_else (content payload) EmptyString) with
               | inl e => inl e
               | inr t => inr {| unchanged := false; fetched_etag := header_ETag r;
                                 pubspec_text := Some t |}
               end
         end
   end, after_request cfg w).
Proof.
  unfold config_ok, _fetch_pubspec_from_github. intros ->. cbn [negb].
  unfold bind, get_cache, http_get, upstream_answer, after_request, fetch_request.
  cbn [w_cache w_calls].
  destruct (requests_get _ _) as [e|r]; [reflexivity|].
  destruct ((status_code r =? 304) && _); [reflexivity|].
  unfold api_error, raise.
  destruct (negb (status_code r =? 200)); [reflexivity|].
  unfold lift. destruct (json r) as [e|payload]; [reflexivity|].
  destruct (negb _ || negb _); [reflexivity|].
  destruct (b64decode_utf8 _); reflexivity.
Qed.

Lemma fetch_cache (w : World) : w_cache (snd (fetch w)) = w_cache w.
Proof.
  destruct (config_ok cfg) eqn:E.
  - rewrite (fetch_configured w E). reflexivity.
  - rewrite (fetch_config_missing w E). reflexivity.
Qed.

Lemma fetch_calls (w : World) :
  w_calls (snd (fetch w)) = w_calls w
  \/ w_calls (snd (fetch w)) = (w_calls w ++ [fetch_request cfg (w_cache w)])%list.
Proof.
  destruct (config_ok cfg) eqn:E.
  - rewrite (fetch_configured w E). right. reflexivity.
  - rewrite (fetch_config_missing w E). left. reflexivity.
Qed.

(** A fetch reports "unchanged" only for a 304 with a version cached. *)
Lemma fetch_unchanged_inv (w : World) (f : Fetched) :
  fst (fetch w) = inr f -> unchanged f = true ->
  config_ok cfg = true
  /\ (exists r, answer w = inr r /\ status_code r = 304)
  /\ version_cached (w_cache w) = true
  /\ f = {| unchanged := true; fetched_etag := Cache.etag (w_cache w);
            pubspec_text := None |}.
Proof.
  destruct (config_ok cfg) eqn:E.
  2:{ rewrite (fetch_config_missing w E). discriminate. }
  rewrite (fetch_configured w E). cbn [fst].
  destruct (answer w) as [e|r]; [discriminate|].
  destruct (status_code r =? 304) eqn:E304; cbn [andb].
  - destruct (version_cached (w_cache w)) eqn:Ev.
    + intros [= <-] _. repeat split; eauto.
      exists r. split; [reflexivity|]. apply Z.eqb_eq. exact E304.
    + destruct (negb _); [discriminate|].
      destruct (json r); [discriminate|].
      destruct (negb _ || negb _); [discriminate|].
      destruct (b64decode_utf8 _); [discriminate|].
      intros [= <-]. discriminate.
  - destruct (negb _); [discriminate|].
    destruct (json r); [discriminate|].
    destruct (negb _ || negb _); [discriminate|].
    destruct (b64decode_utf8 _); [discriminate|].
    intros [= <-]. discriminate.
Qed.

Lemma refresh_hit (force : bool) (now : Q) (w : World) :
  cache_hit force now (w_cache w) = true ->
  refresh force now w = (inr tt, w).
Proof.
  unfold cache_hit, _refresh_cache, bind, get_cache. intros ->. reflexivity.
Qed.

(** Without a cache hit, a refresh runs one fetch and ends in one of three
    ways, each leaving the cache as its summary says. *)
Lemma refresh_miss (force : bool) (now : Q) (w : World) :
  cache_hit force now (w_cache w) = false ->
  refresh force now w =
  (inr tt,
   let c := w_cache w in
   let w1 := snd (fetch w) in
   match fst (fetch w) with
   | inl e => with_cache (after_failure cfg e now c) w1
   | inr f =>
       if unchanged f then with_cache (after_unchanged cfg now c) w1
       else
         match parse_fetched yaml_version f with
         | inl e => with_cache (after_failure cfg e now c) w1
         | inr (v, build, raw) =>
             with_cache (after_stored cfg now v build raw (fetched_etag f)) w1
         end
   end).
Proof.
  unfold cache_hit, _refresh_cache. intros Hmiss.
  unfold bind at 1. unfold get_cache at 1. rewrite Hmiss.
  unfold try_except. unfold bind at 1.
  pose proof (fetch_cache w) as Hc.
  destruct (fetch w) as [[e|f] w1]; cbn [fst snd] in *.
  - unfold bind, set_cache, with_cache, after_failure. cbn. rewrite Hc. reflexivity.
  - unfold parse_fetched.
    destruct (unchanged f).
    + unfold bind, set_cache, with_cache, after_unchanged. cbn. rewrite Hc.
      reflexivity.
    + unfold bind at 1. unfold set_cache at 1.
      unfold bind at 1. unfold set_cache at 1.
      unfold bind at 1. unfold bind at 1. unfold lift.
      destruct (match pubspec_text f with Some t => _ | None => _ end)
        as [e|[[v build] raw]].
      * unfold bind, set_cache, with_cache, after_failure. cbn. rewrite Hc.
        reflexivity.
      * unfold bind, set_cache, with_cache, after_stored. cbn. reflexivity.
Qed.

Lemma refresh_returns (force : bool) (now : Q) (w : World) :
  fst (refresh force now w) = inr tt.
Proof.
  destruct (cache_hit force now (w_cache w)) eqn:E.
  - rewrite (refresh_hit _ _ _ E). reflexivity.
  - rewrite (refresh_miss _ _ _ E). reflexivity.
Qed.

(** A refresh issues at most one upstream request. *)
Lemma refresh_calls (force : bool) (now : Q) (w : World) :
  w_calls (snd (refresh force now w)) = w_calls w
  \/ w_calls (snd (refresh force now w))
     = (w_calls w ++ [fetch_request cfg (w_cache w)])%list.
Proof.
  destruct (cache_hit force now (w_cache w)) eqn:E.
  - rewrite (refresh_hit _ _ _ E). left. reflexivity.
  - rewrite (refresh_miss _ _ _ E). cbn [snd].
    assert (Hw : forall c, w_calls (with_cache c (snd (fetch w)))
                           = w_calls (snd (fetch w))) by reflexivity.
    destruct (fst (fetch w)) as [e|f].
    + rewrite Hw. apply fetch_calls.
    + destruct (unchanged f); [rewrite Hw; apply fetch_calls|].
      destruct (parse_fetched yaml_version f) as [e|[[v build] raw]];
        rewrite Hw; apply fetch_calls.
Qed.

Lemma time_ltb_lt (a b : Q) : time_ltb a b = true <-> (a < b)%Q.
Proof. unfold time_ltb, Qlt. apply Z.ltb_lt. Qed.

Lemma refresh_fails_miss (force : bool) (now : Q) (w : World) (e : exn) :
  cache_hit force now (w_cache w) = false ->
  refresh_fails cfg requests_get b64decode_utf8 yaml_version w e ->
  w_cache (snd (refresh force now w)) = after_failure cfg e now (w_cache w).
Proof.
  intros Hmiss Hfail. rewrite (refresh_miss _ _ _ Hmiss). cbn [snd].
  destruct Hfail as [Hf | (f & t & Hf & Hu & Ht & Hp)]; rewrite Hf.
  - reflexivity.
  - rewrite Hu. unfold parse_fetched. rewrite Ht, Hp. reflexivity.
Qed.

(** C4.  Whenever a refresh calls the fetch and the fetch raises, or the
    manifest parse raises on the content it returned, the refresh stores the
    text of the exception in [error], sets [last_checked_at] to [int(now)],
    sets [expires_at] to [now + min(CACHE_TTL_SECONDS, 30)], and leaves
    [version], [build] and [raw_version] (and [source] and [etag]) as they
    were. *)
Theorem C4_refresh_failure_frame (force : bool) (now : Q) (w : World) (e : exn) :
  cache_hit force now (w_cache w) = false ->
  refresh_fails cfg requests_get b64decode_utf8 yaml_version w e ->
  let c := w_cache w in
  let c' := w_cache (snd (refresh force now w)) in
  Cache.error c' = Some (str_exn e)
  /\ Cache.last_checked_at c' = Some (int_of_time now)
  /\ Cache.expires_at c' = time_add now (Z.min (CACHE_TTL_SECONDS cfg) 30)
  /\ Cache.version c' = Cache.version c
  /\ Cache.build c' = Cache.build c
  /\ Cache.raw_version c' = Cache.raw_version c
  /\ Cache.source c' = Cache.source c
  /\ Cache.etag c' = Cache.etag c.
Proof.
  intros Hmiss Hfail. cbv zeta.
  rewrite (refresh_fails_miss _ _ _ _ Hmiss Hfail).
  repeat split; reflexivity.
Qed.


(** C6.  When a refresh calls the fetch, the upstream answers 304 and a
    version is cached, the fetch reports "unchanged" and the refresh sets
    [source] to [github(etag-cache)], [last_checked_at] to [int(now)],
    [expires_at] to [now + CACHE_TTL_SECONDS] and [error] to [None], and
    leaves [version], [build], [raw_version] and [etag] as they were. *)
Theorem C6_refresh_unchanged (force : bool) (now : Q) (w : World) (r : Response) :
  config_ok cfg = true ->
  cache_hit force now (w_cache w) = false ->
  answer w = inr r ->
  status_code r = 304 ->
  version_cached (w_cache w) = true ->
  let c := w_cache w in
  let c' := w_cache (snd (refresh force now w)) in
  fst (fetch w) = inr {| unchanged := true; fetched_etag := Cache.etag c;
                         pubspec_text := None |}
  /\ Cache.source c' = Some "github(etag-cache)"
  /\ Cache.last_checked_at c' = Some (int_of_time now)
  /\ Cache.expires_at c' = time_add now (CACHE_TTL_SECONDS cfg)
  /\ Cache.error c' = None
  /\ Cache.version c' = Cache.version c
  /\ Cache.build c' = Cache.build c
  /\ Cache.raw_version c' = Cache.raw_version c
  /\ Cache.etag c' = Cache.etag c.
Proof.
  intros Hcfg Hmiss Hans H304 Hv. cbv zeta.
  assert (Hf : fst (fetch w) =
               inr {| unchanged := true; fetched_etag := Cache.etag (w_cache w);
                      pubspec_text := None |}).
  { rewrite (fetch_configured w Hcfg). cbn [fst]. rewrite Hans, H304, Hv.
    reflexivity. }
  split; [exact Hf|].
  rewrite (refresh_miss _ _ _ Hmiss). cbn [snd]. rewrite Hf. cbn [unchanged].
  repeat split; reflexivity.
Qed.

(** C8.  The fetch reports "unchanged" only when the upstream answered 304
    and a version is cached; it does so for every such answer; and for a 304
    while no version is cached it raises the RuntimeError "GitHub API error:
    304 - ..." of the branch for statuses other than 200. *)
Theorem C8_fetch_304 (w : World) :
  (forall f : Fetched,
      fst (fetch w) = inr f -> unchanged f = true ->
      (exists r, answer w = inr r /\ status_code r = 304)
      /\ version_cached (w_cache w) = true)
  /\ (forall r : Response,
         config_ok cfg = true -> answer w = inr r -> status_code r = 304 ->
         version_cached (w_cache w) = true ->
         fst (fetch w) = inr {| unchanged := true;
                                fetched_etag := Cache.etag (w_cache w);
                                pubspec_text := None |})
  /\ (forall r : Response,
         config_ok cfg = true -> answer w = inr r -> status_code r = 304 ->
         version_cached (w_cache w) = false ->
         fst (fetch w)
         = inl (RuntimeError ("GitHub API error: 304 - " ++ prefix_slice 300 (text r)))
         /\ fst (fetch w) = inl (api_error r)).
Proof.
  split; [|split].
  - intros f Hf Hu. destruct (fetch_unchanged_inv w f Hf Hu) as (_ & Hr & Hv & _).
    split; assumption.
  - intros r Hcfg Hans H304 Hv.
    rewrite (fetch_configured w Hcfg). cbn [fst]. rewrite Hans, H304, Hv.
    reflexivity.
  - intros r Hcfg Hans H304 Hv.
    rewrite (fetch_configured w Hcfg). cbn [fst]. rewrite Hans, Hv.
    unfold api_error. rewrite H304. split; reflexivity.
Qed.

(** ** The handlers *)

Local Notation "'GET_version'" := (version cfg requests_get b64decode_utf8 yaml_version).
Local Notation "'GET_check'" := (check cfg requests_get b64decode_utf8 yaml_version).

Lemma version_unfold (force_arg : option string) (now : Q) (w : World) :
  GET_version force_arg now w =
  let w1 := snd (refresh (force_flag force_arg) now w) in
  let c := w_cache w1 in
  (inr (if negb (version_cached c)
        then ([("ok", JBool false);
               ("error", JStr (or_else (Cache.error c) "unknown"));
               ("last_checked_at", json_int (Cache.last_checked_at c))], 502)
        else ([("ok", JBool true);
               ("version", json_str (Cache.version c));
               ("build", json_int (Cache.build c));
               ("raw", json_str (Cache.raw_version c));
               ("source", json_str (Cache.source c));
               ("last_checked_at", json_int (Cache.last_checked_at c));
               ("cache_ttl_seconds", JInt (CACHE_TTL_SECONDS cfg));
               ("error", json_str (Cache.error c))], 200)), w1).
Proof.
  unfold version. fold (force_flag force_arg).
  pose proof (refresh_returns (force_flag force_arg) now w) as Hret.
  unfold bind at 1.
  destruct (refresh (force_flag force_arg) now w) as [[e|u] w1];
    cbn [fst snd] in *; [discriminate|].
  unfold bind, get_cache, ret. cbv zeta.
  destruct (negb (version_cached (w_cache w1))); reflexivity.
Qed.

Lemma check_unfold (current_arg : option string) (now : Q) (w : World) :
  let current := strip (or_else current_arg EmptyString) in
  let w1 := snd (refresh false now w) in
  let c := w_cache w1 in
  nonempty current = true ->
  GET_check current_arg now w =
  (if negb (truthy (Cache.raw_version c))
   then inr ([("ok", JBool false);
              ("error", JStr (or_else (Cache.error c) "unknown"))], 502)
   else
     let latest_raw := or_else (Cache.raw_version c) EmptyString in
     match rbind (parse_version current) (fun cur =>
           rbind (parse_version latest_raw) (fun lat =>
           inr (update_available lat cur)))
     with
     | inr u => inr ([("ok", JBool true);
                      ("update_available", JBool u);
                      ("current", JStr current);
                      ("latest", JStr latest_raw)], 200)
     | inl e => inr ([("ok", JBool false); ("error", JStr (str_exn e))], 400)
     end, w1).
Proof.
  cbv zeta. intros Hcur. unfold check. rewrite Hcur. cbn [negb].
  pose proof (refresh_returns false now w) as Hret.
  unfold bind at 1.
  destruct (refresh false now w) as [[e|u] w1]; cbn [fst snd] in *;
    [discriminate|].
  unfold bind, get_cache. 
  destruct (negb (truthy (Cache.raw_version (w_cache w1)))); [reflexivity|].
  destruct (parse_version (strip (or_else current_arg EmptyString))) as [e|cur] eqn:Ec;
    cbn [rbind].
  - rewrite (parse_version_raises_ValueError _ _ Ec). reflexivity.
  - destruct (parse_version (or_else (Cache.raw_version (w_cache w1)) EmptyString))
      as [e|lat] eqn:El; cbn [rbind].
    + rewrite (parse_version_raises_ValueError _ _ El). reflexivity.
    + reflexivity.
Qed.

(** C7, as amended.  [GET /version] answers from the cache as the refresh
    leaves it: 502 with [ok: false] exactly when the [version] field is then
    absent or empty, and otherwise 200 with [ok: true] and the cached
    [version], [build], [raw], [source], [last_checked_at], the configured
    [cache_ttl_seconds] and [error].  When a version is cached and the
    refresh fails, the answer is still 200, with the version fields as they
    were and the failure in [error]; on the initial cache a failing refresh
    gives 502.  With a version cached, the answer is 502 only when the
    refresh fetched new content whose manifest version has an empty version
    part, which it stored. *)
Theorem C7_version_endpoint :
  (forall (force_arg : option string) (now : Q) (w : World),
      let w' := snd (GET_version force_arg now w) in
      let c := w_cache w' in
      w' = snd (refresh (force_flag force_arg) now w)
      /\ exists resp : HttpResponse,
          fst (GET_version force_arg now w) = inr resp
          /\ (status resp = 502 <-> version_cached c = false)
          /\ (version_cached c = false ->
              resp = ([("ok", JBool false);
                       ("error", JStr (or_else (Cache.error c) "unknown"));
                       ("last_checked_at", json_int (Cache.last_checked_at c))],
                      502))
          /\ (version_cached c = true ->
              resp = ([("ok", JBool true);
                       ("version", json_str (Cache.version c));
                       ("build", json_int (Cache.build c));
                       ("raw", json_str (Cache.raw_version c));
                       ("source", json_str (Cache.source c));
                       ("last_checked_at", json_int (Cache.last_checked_at c));
                       ("cache_ttl_seconds", JInt (CACHE_TTL_SECONDS cfg));
                       ("error", json_str (Cache.error c))], 200)))
  /\ (forall (force_arg : option string) (now : Q) (w : World) (e : exn),
         version_cached (w_cache w) = true ->
         cache_hit (force_flag force_arg) now (w_cache w) = false ->
         refresh_fails cfg requests_get b64decode_utf8 yaml_version w e ->
         fst (GET_version force_arg now w)
         = inr ([("ok", JBool true);
                 ("version", json_str (Cache.version (w_cache w)));
                 ("build", json_int (Cache.build (w_cache w)));
                 ("raw", json_str (Cache.raw_version (w_cache w)));
                 ("source", json_str (Cache.source (w_cache w)));
                 ("last_checked_at", JInt (int_of_time now));
                 ("cache_ttl_seconds", JInt (CACHE_TTL_SECONDS cfg));
                 ("error", JStr (str_exn e))], 200))
  /\ (forall (force_arg : option string) (now : Q) (calls : list Request) (e : exn),
         let w := {| w_cache := _cache; w_calls := calls |} in
         refresh_fails cfg requests_get b64decode_utf8 yaml_version w e ->
         fst (GET_version force_arg now w)
         = inr ([("ok", JBool false);
                 ("error", JStr (or_else (Some (str_exn e)) "unknown"));
                 ("last_checked_at", JInt (int_of_time now))], 502))
  /\ (forall (force_arg : option string) (now : Q) (w : World),
         version_cached (w_cache w) = true ->
         status_of (fst (GET_version force_arg now w)) = Some 502 ->
         cache_hit (force_flag force_arg) now (w_cache w) = false
         /\ exists (f : Fetched) (t raw : string) (build : option Z),
             fst (fetch w) = inr f
             /\ unchanged f = false
             /\ pubspec_text f = Some t
             /\ _parse_pubspec yaml_version t = inr (EmptyString, build, raw)
             /\ w_cache (snd (GET_version force_arg now w))
                = after_stored cfg now EmptyString build raw (fetched_etag f)).
Proof.
  split; [|split; [|split]].
  - intros force_arg now w. cbv zeta. rewrite version_unfold. cbv zeta.
    cbn [fst snd]. split; [reflexivity|].
    eexists. split; [reflexivity|].
    destruct (version_cached _); cbn [negb status snd]; repeat split;
      intros; try reflexivity; discriminate.
  - intros force_arg now w e Hv Hmiss Hfail.
    rewrite version_unfold. cbv zeta. cbn [fst].
    rewrite (refresh_fails_miss _ _ _ _ Hmiss Hfail).
    unfold version_cached in *. cbn [after_failure Cache.version].
    rewrite Hv. reflexivity.
  - intros force_arg now calls e w Hfail.
    rewrite version_unfold. cbv zeta. cbn [fst].
    assert (Hmiss : cache_hit (force_flag force_arg) now (w_cache w) = false).
    { unfold cache_hit. subst w. cbn. apply andb_false_r. }
    rewrite (refresh_fails_miss _ _ _ _ Hmiss Hfail). reflexivity.
  - intros force_arg now w Hv. rewrite version_unfold. cbv zeta. cbn [fst snd].
    assert (Hv' : truthy (Cache.version (w_cache w)) = true) by exact Hv.
    destruct (cache_hit (force_flag force_arg) now (w_cache w)) eqn:Eh.
    { rewrite (refresh_hit _ _ _ Eh). cbn [snd]. rewrite Hv. discriminate. }
    rewrite (refresh_miss _ _ _ Eh). cbn [snd].
    assert (Hfail : forall e,
               version_cached
                 (w_cache (with_cache (after_failure cfg e now (w_cache w))
                                      (snd (fetch w)))) = true).
    { intros e. exact Hv'. }
    destruct (fst (fetch w)) as [e|f] eqn:Ef.
    { rewrite Hfail. discriminate. }
    destruct (unchanged f) eqn:Eu.
    { unfold version_cached.
      cbn [with_cache w_cache after_unchanged Cache.version].
      rewrite Hv'. discriminate. }
    unfold parse_fetched.
    destruct (pubspec_text f) as [t|] eqn:Et.
    2:{ rewrite Hfail. discriminate. }
    destruct (_parse_pubspec yaml_version t) as [e|[[v build] raw]] eqn:Ep.
    { rewrite Hfail. discriminate. }
    unfold version_cached. cbn [with_cache w_cache after_stored Cache.version truthy].
    destruct v as [|c v']; cbn [nonempty negb]; [|discriminate].
    intros _. split; [reflexivity|].
    exists f, t, raw, build. repeat split; auto.
Qed.

(** C1, as amended.  When [GET /check] has a non-empty [current] and a raw
    version is cached after its refresh, a ValueError of [parse_version] on
    the caller's [current] is answered with 400 and the text of the
    exception, and so is a ValueError of [parse_version] on the cached
    [raw_version]; in both cases the cache is left as the refresh left it.
    The refresh itself stores a manifest version without examining its
    grammar: when it stores one, [error] is [None]. *)
Theorem C1_check_invalid_version
    (current_arg : option string) (now : Q) (w : World) (latest : string) :
  let current := strip (or_else current_arg EmptyString) in
  let w1 := snd (refresh false now w) in
  nonempty current = true ->
  Cache.raw_version (w_cache w1) = Some latest ->
  nonempty latest = true ->
  (forall e : exn,
      parse_version current = inl e ->
      GET_check current_arg now w
      = (inr ([("ok", JBool false); ("error", JStr (str_exn e))], 400), w1))
  /\ (forall (cur : VersionTuple) (e : exn),
         parse_version current = inr cur ->
         parse_version latest = inl e ->
         GET_check current_arg now w
         = (inr ([("ok", JBool false); ("error", JStr (str_exn e))], 400), w1))
  /\ (forall (f : Fetched) (v : string) (build : option Z) (raw : string),
         cache_hit false now (w_cache w) = false ->
         fst (fetch w) = inr f ->
         unchanged f = false ->
         parse_fetched yaml_version f = inr (v, build, raw) ->
         latest = raw /\ Cache.error (w_cache w1) = None).
Proof.
  cbv zeta. intros Hcur Hraw Hlatest.
  pose proof (check_unfold current_arg now w) as Hchk. cbv zeta in Hchk.
  specialize (Hchk Hcur). rewrite Hraw in Hchk.
  cbn [truthy or_else] in Hchk. rewrite Hlatest in Hchk. cbn [negb] in Hchk.
  split; [|split].
  - intros e He. rewrite Hchk, He. reflexivity.
  - intros cur e Hc He. rewrite Hchk, Hc. cbn [rbind]. rewrite He. reflexivity.
  - intros f v build raw Hmiss Hf Hu Hp. revert Hraw.
    rewrite (refresh_miss _ _ _ Hmiss). cbn [snd]. rewrite Hf, Hu, Hp.
    cbn. intros [= <-]. split; reflexivity.
Qed.

(** C3.  The branch of [check] that sets [update_available] yields true
    exactly when the latest tuple is greater than the current one in the
    order that compares [(major, minor, patch)] lexicographically and then
    the build number; [GET /check] reports that value whenever both strings
    parse; and [compare(parse("1.2.3+5"), parse("1.2.3+10"))] is less while
    [compare(parse("2.0.0"), parse("1.9.9+999"))] is greater. *)
Theorem C3_update_available_order :
  (forall lat cur : VersionTuple,
      update_available lat cur = true <-> compare lat cur = Gt)
  /\ (forall (current_arg : option string) (now : Q) (w : World)
             (latest : string) (cur lat : VersionTuple),
         let current := strip (or_else current_arg EmptyString) in
         let w1 := snd (refresh false now w) in
         nonempty current = true ->
         Cache.raw_version (w_cache w1) = Some latest ->
         nonempty latest = true ->
         parse_version current = inr cur ->
         parse_version latest = inr lat ->
         GET_check current_arg now w
         = (inr ([("ok", JBool true);
                  ("update_available", JBool (is_Gt (compare lat cur)));
                  ("current", JStr current);
                  ("latest", JStr latest)], 200), w1))
  /\ compare_parsed "1.2.3+5" "1.2.3+10" = inr Lt
  /\ compare_parsed "2.0.0" "1.9.9+999" = inr Gt.
Proof.
  split; [|split; [|split; reflexivity]].
  - intros lat cur. rewrite update_available_compare.
    destruct (compare lat cur); cbn [is_Gt]; split; congruence.
  - cbv zeta. intros current_arg now w latest cur lat Hcur Hraw Hlatest Hc Hl.
    pose proof (check_unfold current_arg now w) as Hchk. cbv zeta in Hchk.
    specialize (Hchk Hcur). rewrite Hraw in Hchk.
    cbn [truthy or_else] in Hchk. rewrite Hlatest in Hchk. cbn [negb] in Hchk.
    rewrite Hchk, Hc. cbn [rbind]. rewrite Hl. cbn [rbind].
    rewrite update_available_compare. reflexivity.
Qed.

(** C9, as amended.  For every manifest whose version string, stripped, is
    not empty and whose build part is missing or, once stripped, is not
    accepted by [isdigit], [_parse_pubspec] returns the build [None], which
    the refresh stores and [GET /version] reports as null, while
    [parse_version] on the same raw string yields build 0 whenever it
    returns, and does return when the stripped components are three strings
    of decimal digits within the interpreter's conversion limit.
    [_parse_pubspec] applies no check of the three-component grammar: it
    accepts every such string, and every one whose stripped build part is
    entirely decimal digits within that limit, so the cache may hold a
    [raw_version] that [parse_version] rejects, as for [1.2.3.4]. *)
Theorem C9_parsers_disagree :
  (forall text field : string,
      let raw := strip field in
      yaml_version text = inr field ->
      nonempty raw = true ->
      (forall b, build_part_of raw = Some b -> isdigit (strip b) = false) ->
      _parse_pubspec yaml_version text
      = inr (strip (version_part_of raw), None, raw)
      /\ (forall t, parse_version raw = inr t -> item3 t = 0)
      /\ (forall major minor patch,
             spec_components (map strip (split "." (version_part_of raw)))
             = Some (major, minor, patch) ->
             Forall (fun p => (String.length p <= int_max_str_digits)%nat)
                    (map strip (split "." (version_part_of raw))) ->
             parse_version raw = inr (major, minor, patch, 0)))
  /\ (forall text field b : string,
         let raw := strip field in
         yaml_version text = inr field ->
         nonempty raw = true ->
         build_part_of raw = Some b ->
         isdecimal (strip b) = true ->
         (String.length (strip b) <= int_max_str_digits)%nat ->
         _parse_pubspec yaml_version text
         = inr (strip (version_part_of raw), Some (decimal_value (strip b)), raw))
  /\ (forall (force : bool) (now : Q) (w : World) (f : Fetched)
             (v raw : string),
         cache_hit force now (w_cache w) = false ->
         fst (fetch w) = inr f ->
         unchanged f = false ->
         parse_fetched yaml_version f = inr (v, None, raw) ->
         let c' := w_cache (snd (refresh force now w)) in
         Cache.build c' = None /\ Cache.raw_version c' = Some raw
         /\ Cache.version c' = Some v /\ Cache.error c' = None)
  /\ (forall (force_arg : option string) (now : Q) (w : World)
             (resp : HttpResponse),
         fst (GET_version force_arg now w) = inr resp ->
         status resp = 200 ->
         Cache.build (w_cache (snd (GET_version force_arg now w))) = None ->
         In ("build", JNull) (body resp))
  /\ (_parse_pubspec Demo.yaml_version ("version: 1.2.3.4" ++ Demo.nl)
      = inr ("1.2.3.4", None, "1.2.3.4")
      /\ parse_version "1.2.3.4" = inl (invalid_version_format "1.2.3.4")).
Proof.
  split; [|split; [|split; [|split; [|split; reflexivity]]]].
  - cbv zeta. intros text field Hy Hne Hb.
    assert (Hparse : _parse_pubspec yaml_version text
                     = inr (strip (version_part_of (strip field)), None, strip field)).
    { unfold _parse_pubspec. rewrite Hy. cbn [rbind]. rewrite Hne. cbn [negb].
      unfold version_part_of, build_part_of in *.
      destruct (split1 "+" (strip field)) as [[v b]|].
      - rewrite (Hb b eq_refl). reflexivity.
      - rewrite strip_idempotent. reflexivity. }
    assert (Hcmp : forall vp build,
      (match split1 "+" (strip field) with
       | Some (version_part, build_part) =>
           let build_part := strip build_part in
           if isdigit build_part
           then rbind (py_int build_part) (fun build => inr (version_part, build))
           else inr (version_part, 0)
       | None => inr (strip field, 0)
       end) = (inr (vp, build) : result (string * Z)) ->
      vp = version_part_of (strip field) /\ build = 0).
    { intros vp build. unfold version_part_of, build_part_of in *.
      destruct (split1 "+" (strip field)) as [[v b]|].
      - cbv zeta. rewrite (Hb b eq_refl). intros [= <- <-]. split; reflexivity.
      - intros [= <- <-]. split; reflexivity. }
    split; [exact Hparse|]. split.
    + intros t. unfold parse_version. rewrite strip_idempotent.
      destruct (match split1 "+" (strip field) with Some _ => _ | None => _ end)
        as [e|[vp build]] eqn:E; cbn [rbind]; [discriminate|].
      destruct (Hcmp vp build eq_refl) as [-> ->].
      destruct (negb _ || negb _); [discriminate|].
      destruct (py_int (nth 0 _ EmptyString)); cbn [rbind]; [discriminate|].
      destruct (py_int (nth 1 _ EmptyString)); cbn [rbind]; [discriminate|].
      destruct (py_int (nth 2 _ EmptyString)); cbn [rbind]; [discriminate|].
      intros [= <-]. reflexivity.
    + intros major minor patch Hsc Hlen.
      unfold parse_version. rewrite strip_idempotent.
      destruct (match split1 "+" (strip field) with Some _ => _ | None => _ end)
        as [e|[vp build]] eqn:E.
      * exfalso. unfold build_part_of in Hb.
        destruct (split1 "+" (strip field)) as [[v b]|]; [|discriminate].
        cbv zeta in E. rewrite (Hb b eq_refl) in E. discriminate.
      * destruct (Hcmp vp build eq_refl) as [-> ->]. cbn [rbind].
        revert Hsc Hlen.
        destruct (map strip (split "." (version_part_of (strip field))))
          as [|p0 [|p1 [|p2 [|p3 rest]]]]; cbn [spec_components];
          try discriminate.
        destruct (isdecimal p0) eqn:E0; [|discriminate].
        destruct (isdecimal p1) eqn:E1; [|discriminate].
        destruct (isdecimal p2) eqn:E2; [|discriminate].
        cbn [andb]. intros [= <- <- <-] Hlen.
        inversion Hlen as [|? ? L0 Hlen1]; subst.
        inversion Hlen1 as [|? ? L1 Hlen2]; subst.
        inversion Hlen2 as [|? ? L2 _]; subst.
        cbn [length Nat.eqb negb orb forallb nth].
        rewrite !isdecimal_isdigit by assumption. cbn [andb negb].
        rewrite !py_int_decimal by assumption. reflexivity.
  - cbv zeta. intros text field b Hy Hne Hb Hdec Hlen.
    unfold _parse_pubspec. rewrite Hy. cbn [rbind]. rewrite Hne. cbn [negb].
    unfold version_part_of, build_part_of in *.
    destruct (split1 "+" (strip field)) as [[v b']|]; [|discriminate].
    injection Hb as ->.
    rewrite (isdecimal_isdigit _ Hdec), (py_int_decimal _ Hdec Hlen).
    reflexivity.
  - intros force now w f v raw Hmiss Hf Hu Hp. cbv zeta.
    rewrite (refresh_miss _ _ _ Hmiss). cbn [snd]. rewrite Hf, Hu, Hp.
    repeat split; reflexivity.
  - intros force_arg now w resp. rewrite version_unfold. cbv zeta.
    cbn [fst snd].
    destruct (negb (version_cached _)).
    + intros [= <-]. discriminate.
    + intros [= <-] _ Hb. rewrite Hb. cbn. auto.
Qed.





End ServiceProperties.

(** ** The theorems at concrete inputs *)

(** C1 as stated fails.  Starting from the initial cache, [GET /version] at
    time 1000 fetches the manifest [version: 1.2.3.4], which the refresh
    stores without complaint; [GET /check?current=1.0.0] at time 1010 then
    answers 400 for the upstream's string, and the cache records no error. *)
Lemma C1_counterexample :
  w_cache (snd (version Demo.cfg
                  (Demo.always (inr (Demo.ok_response "dmVyc2lvbjogMS4yLjMuNAo=" "W/def")))
                  Demo.b64decode_utf8 Demo.yaml_version None 1000
                  (Demo.world _cache)))
  = Demo.populated_bad
  /\ parse_version "1.0.0" = inr (1, 0, 0, 0)
  /\ parse_version "1.2.3.4" = inl (invalid_version_format "1.2.3.4")
  /\ fst (check Demo.cfg
            (Demo.always (inr (Demo.ok_response "dmVyc2lvbjogMS4yLjMuNAo=" "W/def")))
            Demo.b64decode_utf8 Demo.yaml_version (Some "1.0.0") 1010
            (snd (version Demo.cfg
                    (Demo.always (inr (Demo.ok_response "dmVyc2lvbjogMS4yLjMuNAo=" "W/def")))
                    Demo.b64decode_utf8 Demo.yaml_version None 1000
                    (Demo.world _cache))))
     = inr ([("ok", JBool false);
             ("error", JStr "Invalid version format: 1.2.3.4. Expected e.g. 1.16.1+3")],
            400)
  /\ Cache.error
       (w_cache
          (snd (check Demo.cfg
                  (Demo.always (inr (Demo.ok_response "dmVyc2lvbjogMS4yLjMuNAo=" "W/def")))
                  Demo.b64decode_utf8 Demo.yaml_version (Some "1.0.0") 1010
                  (snd (version Demo.cfg
                          (Demo.always (inr (Demo.ok_response "dmVyc2lvbjogMS4yLjMuNAo=" "W/def")))
                          Demo.b64decode_utf8 Demo.yaml_version None 1000
                          (Demo.world _cache))))))
     = None.
Proof. repeat split; vm_compute; reflexivity. Qed.

Lemma C1_check_invalid_version_witness :
  nonempty (strip (or_else (Some "1.0.0") EmptyString)) = true
  /\ check Demo.cfg Demo.offline Demo.b64decode_utf8 Demo.yaml_version
       (Some "1.0.0") 1010 (Demo.world Demo.populated_bad)
     = (inr ([("ok", JBool false);
              ("error", JStr (str_exn (invalid_version_format "1.2.3.4")))], 400),
        Demo.world Demo.populated_bad).
Proof.
  split; [reflexivity|].
  exact (proj1 (proj2
           (C1_check_invalid_version Demo.cfg Demo.offline Demo.b64decode_utf8
              Demo.yaml_version (Some "1.0.0") 1010 (Demo.world Demo.populated_bad)
              "1.2.3.4" eq_refl eq_refl eq_refl))
           (1, 0, 0, 0) (invalid_version_format "1.2.3.4") eq_refl eq_refl).
Defined.

Lemma C3_update_available_order_witness :
  parse_version "1.16.0" = inr (1, 16, 0, 0)
  /\ parse_version "1.16.1+3" = inr (1, 16, 1, 3)
  /\ check Demo.cfg Demo.offline Demo.b64decode_utf8 Demo.yaml_version
       (Some "1.16.0") 1010 (Demo.world Demo.populated)
     = (inr ([("ok", JBool true);
              ("update_available", JBool true);
              ("current", JStr "1.16.0");
              ("latest", JStr "1.16.1+3")], 200),
        Demo.world Demo.populated).
Proof.
  split; [reflexivity|]. split; [reflexivity|].
  exact (proj1 (proj2
           (C3_update_available_order Demo.cfg Demo.offline Demo.b64decode_utf8
              Demo.yaml_version))
           (Some "1.16.0") 1010%Q (Demo.world Demo.populated) "1.16.1+3"
           (1, 16, 0, 0) (1, 16, 1, 3) eq_refl eq_refl eq_refl eq_refl eq_refl).
Defined.

Lemma C4_refresh_failure_frame_witness :
  cache_hit false 2000 Demo.populated = false
  /\ Cache.error
       (w_cache (snd (_refresh_cache Demo.cfg
                        (Demo.always (inr (Demo.status_response 500 "Server Error")))
                        Demo.b64decode_utf8 Demo.yaml_version false 2000
                        (Demo.world Demo.populated))))
     = Some "GitHub API error: 500 - Server Error"
  /\ Cache.version
       (w_cache (snd (_refresh_cache Demo.cfg
                        (Demo.always (inr (Demo.status_response 500 "Server Error")))
                        Demo.b64decode_utf8 Demo.yaml_version false 2000
                        (Demo.world Demo.populated))))
     = Some "1.16.1".
Proof.
  split; [reflexivity|].
  pose proof (C4_refresh_failure_frame Demo.cfg
                (Demo.always (inr (Demo.status_response 500 "Server Error")))
                Demo.b64decode_utf8 Demo.yaml_version false 2000
                (Demo.world Demo.populated)
                (api_error (Demo.status_response 500 "Server Error"))
                eq_refl (or_introl eq_refl)) as H.
  cbv zeta in H.
  split; [exact (proj1 H) | exact (proj1 (proj2 (proj2 (proj2 H))))].
Defined.


Lemma C6_refresh_unchanged_witness :
  cache_hit false 2000 Demo.populated = false
  /\ Cache.source
       (w_cache (snd (_refresh_cache Demo.cfg
                        (Demo.always (inr (Demo.status_response 304 EmptyString)))
                        Demo.b64decode_utf8 Demo.yaml_version false 2000
                        (Demo.world Demo.populated))))
     = Some "github(etag-cache)"
  /\ Cache.raw_version
       (w_cache (snd (_refresh_cache Demo.cfg
                        (Demo.always (inr (Demo.status_response 304 EmptyString)))
                        Demo.b64decode_utf8 Demo.yaml_version false 2000
                        (Demo.world Demo.populated))))
     = Some "1.16.1+3".
Proof.
  split; [reflexivity|].
  pose proof (C6_refresh_unchanged Demo.cfg
                (Demo.always (inr (Demo.status_response 304 EmptyString)))
                Demo.b64decode_utf8 Demo.yaml_version false 2000
                (Demo.world Demo.populated) (Demo.status_response 304 EmptyString)
                eq_refl eq_refl eq_refl eq_refl eq_refl) as H.
  cbv zeta in H.
  split; [exact (proj1 (proj2 H))|].
  exact (proj1 (proj2 (proj2 (proj2 (proj2 (proj2 (proj2 (proj2 H)))))))).
Defined.

Lemma C7_version_endpoint_witness :
  version_cached Demo.populated = true
  /\ fst (version Demo.cfg
            (Demo.always (inr (Demo.status_response 500 "Server Error")))
            Demo.b64decode_utf8 Demo.yaml_version (Some "1") 1010
            (Demo.world Demo.populated))
     = inr ([("ok", JBool true);
             ("version", JStr "1.16.1");
             ("build", JInt 3);
             ("raw", JStr "1.16.1+3");
             ("source", JStr "github");
             ("last_checked_at", JInt 1010);
             ("cache_ttl_seconds", JInt 60);
             ("error", JStr "GitHub API error: 500 - Server Error")], 200).
Proof.
  split; [reflexivity|].
  exact (proj1 (proj2
           (C7_version_endpoint Demo.cfg
              (Demo.always (inr (Demo.status_response 500 "Server Error")))
              Demo.b64decode_utf8 Demo.yaml_version))
           (Some "1") 1010%Q (Demo.world Demo.populated)
           (api_error (Demo.status_response 500 "Server Error"))
           eq_refl eq_refl (or_introl eq_refl)).
Defined.

Lemma C8_fetch_304_witness :
  version_cached _cache = false
  /\ fst (_fetch_pubspec_from_github Demo.cfg
            (Demo.always (inr (Demo.status_response 304 EmptyString)))
            Demo.b64decode_utf8 (Demo.world _cache))
     = inl (RuntimeError "GitHub API error: 304 - ").
Proof.
  split; [reflexivity|].
  exact (proj1 (proj2 (proj2
           (C8_fetch_304 Demo.cfg
              (Demo.always (inr (Demo.status_response 304 EmptyString)))
              Demo.b64decode_utf8 (Demo.world _cache)))
           (Demo.status_response 304 EmptyString) eq_refl eq_refl eq_refl eq_refl)).
Defined.

(** C9 as stated fails: the build part of the manifest version [1.2.3+ 45]
    is [" 45"], which is not entirely decimal digits, yet [_parse_pubspec]
    stores the build 45 and [parse_version] yields 45 as well. *)
Lemma C9_counterexample :
  build_part_of "1.2.3+ 45" = Some " 45"
  /\ isdecimal " 45" = false
  /\ _parse_pubspec Demo.yaml_version ("version: 1.2.3+ 45" ++ Demo.nl)
     = inr ("1.2.3", Some 45, "1.2.3+ 45")
  /\ parse_version "1.2.3+ 45" = inr (1, 2, 3, 45).
Proof. repeat split; reflexivity. Qed.

Lemma C9_parsers_disagree_witness :
  Demo.yaml_version ("version: 1.2.3+beta" ++ Demo.nl) = inr "1.2.3+beta"
  /\ _parse_pubspec Demo.yaml_version ("version: 1.2.3+beta" ++ Demo.nl)
     = inr ("1.2.3", None, "1.2.3+beta")
  /\ parse_version "1.2.3+beta" = inr (1, 2, 3, 0).
Proof.
  split; [reflexivity|].
  assert (Hb : forall b, build_part_of (strip "1.2.3+beta") = Some b ->
                         isdigit (strip b) = false).
  { intros b Hb. vm_compute in Hb. injection Hb as <-. reflexivity. }
  assert (Hlen : Forall (fun p => (String.length p <= int_max_str_digits)%nat)
                   (map strip (split "." (version_part_of (strip "1.2.3+beta"))))).
  { repeat constructor; apply Nat.leb_le; reflexivity. }
  pose proof (proj1 (C9_parsers_disagree Demo.cfg Demo.offline Demo.b64decode_utf8
                       Demo.yaml_version)
                ("version: 1.2.3+beta" ++ Demo.nl) "1.2.3+beta"
                eq_refl eq_refl Hb) as H.
  split; [exact (proj1 H)|].
  exact (proj2 (proj2 H) 1 2 3 eq_refl Hlen).
Defined.


(** C7 as stated fails.  With version 1.16.1 cached, a forced [GET /version]
    whose fetch succeeds with the manifest [version: '+5'] stores an empty
    [version] beside the raw version [+5], without error, and answers 502;
    the same happens on the initial cache, after a successful fetch. *)
Lemma C7_counterexample :
  version_cached Demo.populated = true
  /\ version Demo.cfg
       (Demo.always (inr (Demo.ok_response "dmVyc2lvbjogJys1Jwo=" "W/ghi")))
       Demo.b64decode_utf8 Demo.yaml_version (Some "1") 1010
       (Demo.world Demo.populated)
     = (inr ([("ok", JBool false);
              ("error", JStr "unknown");
              ("last_checked_at", JInt 1010)], 502),
        {| w_cache := Cache.mk 1070 (Some EmptyString) (Some 5) (Some "+5")
                               (Some "github") (Some "W/ghi") (Some 1010) None;
           w_calls := [fetch_request Demo.cfg Demo.populated] |})
  /\ status_of
       (fst (version Demo.cfg
               (Demo.always (inr (Demo.ok_response "dmVyc2lvbjogJys1Jwo=" "W/ghi")))
               Demo.b64decode_utf8 Demo.yaml_version None 1000
               (Demo.world _cache)))
     = Some 502.
Proof. repeat split; vm_compute; reflexivity. Qed.



(** ** Further runs of the model *)

(** The end-to-end example of the specification: the manifest
    [version: 1.16.1+3] fetched at time 1000 populates the cache, and
    [GET /version] reports version 1.16.1, build 3. *)
Example version_end_to_end :
  version Demo.cfg
    (Demo.always (inr (Demo.ok_response "dmVyc2lvbjogMS4xNi4xKzMK" "W/abc")))
    Demo.b64decode_utf8 Demo.yaml_version None 1000 (Demo.world _cache)
  = (inr ([("ok", JBool true);
           ("version", JStr "1.16.1");
           ("build", JInt 3);
           ("raw", JStr "1.16.1+3");
           ("source", JStr "github");
           ("last_checked_at", JInt 1000);
           ("cache_ttl_seconds", JInt 60);
           ("error", JNull)], 200),
     {| w_cache := Demo.populated;
        w_calls := [fetch_request Demo.cfg _cache] |}).
Proof. vm_compute. reflexivity. Qed.

(** The request of a cold fetch, and the header a cached etag adds. *)
Example fetch_request_cold :
  fetch_request Demo.cfg _cache
  = {| url := "https://api.github.com/repos/Lmntrixpy/lunalist/contents/pubspec.yaml";
       headers := [("Accept", "application/vnd.github+json");
                   ("User-Agent", "version-check-server")];
       params := [("ref", "main")];
       timeout := 15 |}.
Proof. reflexivity. Qed.

Example fetch_request_revalidates :
  In ("If-None-Match", "W/abc") (headers (fetch_request Demo.cfg Demo.populated)).
Proof. cbn. auto. Qed.

(** A manifest without a [version] key: the refresh records the ValueError
    of [_parse_pubspec] and keeps the cached version. *)
Example refresh_manifest_without_version :
  w_cache (snd (_refresh_cache Demo.cfg
                  (Demo.always (inr (Demo.ok_response "bmFtZTogbHVuYWxpc3QK" "W/xyz")))
                  Demo.b64decode_utf8 Demo.yaml_version true 1010
                  (Demo.world Demo.populated)))
  = Cache.mk 1040 (Some "1.16.1") (Some 3) (Some "1.16.1+3") (Some "github")
             (Some "W/abc") (Some 1010)
             (Some "No 'version' field found in pubspec.yaml").
Proof. vm_compute. reflexivity. Qed.

(** [_cache.get("version")] is a truthiness test: a manifest version whose
    version part is empty, such as [+5], is stored with an empty [version], and
    the cache then counts as holding no version although the fetch succeeded
    and [raw_version] is set. *)
Example empty_version_part_is_not_cached :
  forall yaml_version : string -> result string,
    yaml_version "version: '+5'" = inr "+5" ->
    _parse_pubspec yaml_version "version: '+5'" = inr (EmptyString, Some 5, "+5")
    /\ version_cached
         (after_stored Demo.cfg 1000 EmptyString (Some 5) "+5" (Some "W/abc")) = false.
Proof.
  intros yaml_version H. unfold _parse_pubspec. rewrite H. split; reflexivity.
Qed.

(** Sequentially, a refresh that finds the cache expired always reaches the
    upstream: the decision depends on the cache as read on entry only. *)
Lemma refresh_expired_calls_upstream
    (cfg : Config) (requests_get : nat -> Request -> result Response)
    (b64decode_utf8 yaml_version : string -> result string)
    (force : bool) (now : Q) (w : World) :
  config_ok cfg = true ->
  cache_hit force now (w_cache w) = false ->
  w_calls (snd (_refresh_cache cfg requests_get b64decode_utf8 yaml_version force now w))
  = (w_calls w ++ [fetch_request cfg (w_cache w)])%list.
Proof.
  intros Hcfg Hmiss. rewrite (refresh_miss _ _ _ _ _ _ _ Hmiss). cbn [snd].
  assert (Hcalls : w_calls (snd (_fetch_pubspec_from_github cfg requests_get
                                   b64decode_utf8 w))
                   = (w_calls w ++ [fetch_request cfg (w_cache w)])%list).
  { rewrite (fetch_configured _ _ _ w Hcfg). reflexivity. }
  destruct (fst _) as [e|f]; [exact Hcalls|].
  destruct (unchanged f); [exact Hcalls|].
  destruct (parse_fetched yaml_version f) as [e|[[v build] raw]]; exact Hcalls.
Qed.

(** Without a cached version there is no cache hit: after a failed fetch on
    the initial cache, a second refresh one second later reaches the upstream
    again. *)
Example cold_refreshes_both_call_upstream :
  length
    (w_calls
       (snd (_refresh_cache Demo.cfg
               (Demo.always (inr (Demo.status_response 500 "Server Error")))
               Demo.b64decode_utf8 Demo.yaml_version false 1001
               (snd (_refresh_cache Demo.cfg
                       (Demo.always (inr (Demo.status_response 500 "Server Error")))
                       Demo.b64decode_utf8 Demo.yaml_version false 1000
                       (Demo.world _cache))))))
  = 2%nat.
Proof. vm_compute. reflexivity. Qed.

(** * Further properties of the code *)

(** ** Decimal strings *)

Lemma isdecimal_char_bounds (c : ascii) :
  isdecimal_char c = true <-> (48 <= code c <= 57)%N.
Proof.
  unfold isdecimal_char, between. rewrite andb_true_iff, !N.leb_le. tauto.
Qed.

Lemma decimal_value_from_nonneg (s : string) (acc : Z) :
  0 <= acc -> all_chars isdecimal_char s = true -> 0 <= decimal_value_from acc s.
Proof.
  revert acc. induction s as [|c t IH]; intros acc Hacc;
    cbn [decimal_value_from all_chars]; [auto|].
  rewrite andb_true_iff. intros [Hc Ht]. apply IH; [|exact Ht].
  apply isdecimal_char_bounds in Hc. lia.
Qed.

Lemma py_int_inv (s : string) (n : Z) :
  py_int s = inr n -> isdecimal s = true /\ n = decimal_value s.
Proof.
  unfold py_int. destruct (_ <? _)%nat; [discriminate|].
  destruct (isdecimal s); [|discriminate].
  intros [= <-]. split; reflexivity.
Qed.

Lemma py_int_nonneg (s : string) (n : Z) : py_int s = inr n -> 0 <= n.
Proof.
  intros H. destruct (py_int_inv s n H) as [Hd ->].
  unfold isdecimal in Hd. apply andb_true_iff in Hd. destruct Hd as [_ Hd].
  apply decimal_value_from_nonneg; [lia | exact Hd].
Qed.

Lemma decimal_value_nonneg (s : string) : isdecimal s = true -> 0 <= decimal_value s.
Proof.
  unfold isdecimal. rewrite andb_true_iff. intros [_ H].
  apply decimal_value_from_nonneg; [lia | exact H].
Qed.

(** ** The comparator's parser, when it returns *)

Lemma parse_version_inv (s : string) (t : VersionTuple) :
  parse_version s = inr t ->
  exists p0 p1 p2 : string,
    map strip (split "." (version_part_of (strip s))) = [p0; p1; p2]
    /\ isdecimal p0 = true /\ isdecimal p1 = true /\ isdecimal p2 = true
    /\ t = (decimal_value p0, decimal_value p1, decimal_value p2,
            match build_part_of (strip s) with
            | Some b => if isdigit (strip b) then decimal_value (strip b) else 0
            | None => 0
            end)
    /\ (forall b, build_part_of (strip s) = Some b ->
                  isdigit (strip b) = true -> isdecimal (strip b) = true).
Proof.
  unfold parse_version, version_part_of, build_part_of.
  set (v := strip s).
  assert (Hrest : forall vp build,
    (let parts := map strip (split "." vp) in
       if negb (length parts =? 3)%nat || negb (forallb isdigit parts)
       then inl (invalid_version_format v)
       else
         rbind (py_int (nth 0 parts EmptyString)) (fun major =>
         rbind (py_int (nth 1 parts EmptyString)) (fun minor =>
         rbind (py_int (nth 2 parts EmptyString)) (fun patch =>
         inr (major, minor, patch, build))))) = (inr t : result VersionTuple) ->
    exists p0 p1 p2 : string,
      map strip (split "." vp) = [p0; p1; p2]
      /\ isdecimal p0 = true /\ isdecimal p1 = true /\ isdecimal p2 = true
      /\ t = (decimal_value p0, decimal_value p1, decimal_value p2, build)).
  { intros vp build. cbv zeta.
    destruct (map strip (split "." vp)) as [|p0 [|p1 [|p2 [|p3 rest]]]];
      try discriminate.
    cbn [length Nat.eqb negb orb nth].
    destruct (negb _); [discriminate|].
    destruct (py_int p0) as [e|a] eqn:E0; cbn [rbind]; [discriminate|].
    destruct (py_int p1) as [e|b] eqn:E1; cbn [rbind]; [discriminate|].
    destruct (py_int p2) as [e|c] eqn:E2; cbn [rbind]; [discriminate|].
    intros [= <-].
    apply py_int_inv in E0, E1, E2.
    destruct E0 as [? ->], E1 as [? ->], E2 as [? ->].
    exists p0, p1, p2. repeat split; assumption. }
  destruct (split1 "+" v) as [[vp bp]|]; cbn [rbind].
  - destruct (isdigit (strip bp)) eqn:Ed.
    + destruct (py_int (strip bp)) as [e|n] eqn:Eb; cbn [rbind]; [discriminate|].
      intros H. destruct (Hrest _ _ H) as (p0 & p1 & p2 & Hp & H0 & H1 & H2 & ->).
      apply py_int_inv in Eb. destruct Eb as [Hdec ->].
      exists p0, p1, p2. repeat split; try assumption.
      intros b [= <-] _. exact Hdec.
    + cbn [rbind]. intros H.
      destruct (Hrest _ _ H) as (p0 & p1 & p2 & Hp & H0 & H1 & H2 & ->).
      exists p0, p1, p2. repeat split; try assumption.
      intros b [= <-]. congruence.
  - intros H. destruct (Hrest _ _ H) as (p0 & p1 & p2 & Hp & H0 & H1 & H2 & ->).
    exists p0, p1, p2. repeat split; try assumption. discriminate.
Qed.

(** X1.  Whenever [parse_version] returns, the four numbers of its tuple
    are non-negative. *)
Theorem parse_version_nonneg (s : string) (major minor patch build : Z) :
  parse_version s = inr (major, minor, patch, build) ->
  0 <= major /\ 0 <= minor /\ 0 <= patch /\ 0 <= build.
Proof.
  intros H. destruct (parse_version_inv _ _ H)
    as (p0 & p1 & p2 & _ & H0 & H1 & H2 & Ht & Hb).
  injection Ht as -> -> -> ->.
  repeat split; try (apply decimal_value_nonneg; assumption).
  destruct (build_part_of (strip s)) as [b|]; [|lia].
  destruct (isdigit (strip b)) eqn:Ed; [|lia].
  apply decimal_value_nonneg. exact (Hb b eq_refl Ed).
Qed.

Lemma parse_version_nonneg_witness :
  parse_version "1.16.1+3" = inr (1, 16, 1, 3)
  /\ 0 <= 1 /\ 0 <= 16 /\ 0 <= 1 /\ 0 <= 3.
Proof.
  split; [reflexivity|].
  exact (parse_version_nonneg "1.16.1+3" 1 16 1 3 eq_refl).
Defined.

(** ** Printing and reading numbers *)

Lemma all_chars_app (p : ascii -> bool) (a b : string) :
  all_chars p (a ++ b) = all_chars p a && all_chars p b.
Proof.
  induction a as [|c t IH]; cbn [append all_chars]; [reflexivity|].
  rewrite IH, andb_assoc. reflexivity.
Qed.

Lemma string_of_uint_digits (d : Decimal.uint) :
  all_chars isdecimal_char (NilEmpty.string_of_uint d) = true.
Proof. induction d; cbn [NilEmpty.string_of_uint all_chars]; auto. Qed.

Lemma string_of_uint_value_pos (d : Decimal.uint) (acc : positive) :
  decimal_value_from (Z.pos acc) (NilEmpty.string_of_uint d)
  = Z.pos (Pos.of_uint_acc d acc).
Proof.
  revert acc.
  induction d; intros acc;
    cbn [NilEmpty.string_of_uint decimal_value_from Pos.of_uint_acc];
    [reflexivity|..];
    match goal with
    | |- decimal_value_from ?z _ = Z.pos (Pos.of_uint_acc _ ?a) =>
        replace z with (Z.pos a)
          by (cbn -[Z.mul Z.add Z.sub Pos.mul Pos.add]; lia)
    end;
    apply IHd.
Qed.

Lemma string_of_uint_value (d : Decimal.uint) :
  decimal_value_from 0 (NilEmpty.string_of_uint d) = Z.of_N (Pos.of_uint d).
Proof.
  induction d;
    cbn [NilEmpty.string_of_uint decimal_value_from Pos.of_uint];
    [reflexivity | exact IHd | ..];
    match goal with
    | |- decimal_value_from ?z _ = Z.of_N (N.pos (Pos.of_uint_acc _ ?a)) =>
        replace z with (Z.pos a) by reflexivity
    end;
    apply string_of_uint_value_pos.
Qed.

Lemma string_of_uint_nonempty (d : Decimal.uint) :
  d <> Decimal.Nil -> nonempty (NilEmpty.string_of_uint d) = true.
Proof. destruct d; [congruence|reflexivity..]. Qed.

(** [int(str(n)) == n] for a non-negative [n], and [str(n)] consists of the
    characters [0]..[9]. *)
Lemma str_of_int_decimal (n : Z) :
  0 <= n -> isdecimal (str_of_int n) = true /\ decimal_value (str_of_int n) = n.
Proof.
  intros Hn. destruct n as [|p|p]; [split; reflexivity| |lia].
  unfold str_of_int, isdecimal, decimal_value.
  cbn [Z.to_int NilZero.string_of_int].
  pose proof (Unsigned.to_uint_nonnil p) as Hnil.
  assert (Hs : NilZero.string_of_uint (Pos.to_uint p)
               = NilEmpty.string_of_uint (Pos.to_uint p)).
  { unfold NilZero.string_of_uint. destruct (Pos.to_uint p); congruence. }
  rewrite Hs, string_of_uint_nonempty, string_of_uint_digits by exact Hnil.
  split; [reflexivity|].
  rewrite string_of_uint_value, Unsigned.of_to. reflexivity.
Qed.

(** ** Stripping and splitting strings without blanks or separators *)

Lemma isdecimal_char_plain (c : ascii) :
  isdecimal_char c = true ->
  isspace_char c = false
  /\ Ascii.eqb c "." = false /\ Ascii.eqb c "+" = false.
Proof.
  intros H. apply isdecimal_char_bounds in H.
  split; [|split].
  - unfold isspace_char, between.
    repeat match goal with
           | |- context [(?x <=? ?y)%N] => destruct (N.leb_spec x y)
           | |- context [(?x =? ?y)%N] => destruct (N.eqb_spec x y)
           end; try reflexivity; lia.
  - apply Ascii.eqb_neq. intros ->. vm_compute in H. destruct H as [H _].
    apply H. reflexivity.
  - apply Ascii.eqb_neq. intros ->. vm_compute in H. destruct H as [H _].
    apply H. reflexivity.
Qed.

Lemma rstrip_noblank (s : string) :
  all_chars (fun c => negb (isspace_char c)) s = true -> rstrip s = s.
Proof.
  induction s as [|c t IH]; [reflexivity|].
  cbn [all_chars]. rewrite andb_true_iff, negb_true_iff. intros [Hc Ht].
  rewrite (rstrip_nonspace c t Hc), (IH Ht). reflexivity.
Qed.

Lemma strip_noblank (s : string) :
  all_chars (fun c => negb (isspace_char c)) s = true -> strip s = s.
Proof.
  intros H. unfold strip.
  assert (Hl : lstrip s = s).
  { destruct s as [|c t]; [reflexivity|].
    cbn [all_chars] in H. apply andb_true_iff in H. destruct H as [Hc _].
    apply negb_true_iff in Hc. cbn [lstrip]. rewrite Hc. reflexivity. }
  rewrite Hl. apply rstrip_noblank. exact H.
Qed.

Lemma split1_found (sep : ascii) (a b : string) :
  all_chars (fun c => negb (Ascii.eqb c sep)) a = true ->
  split1 sep (a ++ String sep b) = Some (a, b).
Proof.
  induction a as [|c t IH]; cbn [append split1 all_chars].
  - intros _. rewrite Ascii.eqb_refl. reflexivity.
  - rewrite andb_true_iff, negb_true_iff. intros [-> Ht].
    rewrite (IH Ht). reflexivity.
Qed.

Lemma split1_absent (sep : ascii) (a : string) :
  all_chars (fun c => negb (Ascii.eqb c sep)) a = true -> split1 sep a = None.
Proof.
  induction a as [|c t IH]; cbn [split1 all_chars]; [reflexivity|].
  rewrite andb_true_iff, negb_true_iff. intros [-> Ht].
  rewrite (IH Ht). reflexivity.
Qed.

Lemma split_absent (sep : ascii) (a : string) :
  all_chars (fun c => negb (Ascii.eqb c sep)) a = true -> split sep a = [a].
Proof.
  induction a as [|c t IH]; cbn [split all_chars]; [reflexivity|].
  rewrite andb_true_iff, negb_true_iff. intros [-> Ht].
  rewrite (IH Ht). reflexivity.
Qed.

Lemma split_found (sep : ascii) (a b : string) :
  all_chars (fun c => negb (Ascii.eqb c sep)) a = true ->
  split sep (a ++ String sep b) = a :: split sep b.
Proof.
  induction a as [|c t IH]; cbn [append split all_chars].
  - intros _. rewrite Ascii.eqb_refl. reflexivity.
  - rewrite andb_true_iff, negb_true_iff. intros [-> Ht].
    rewrite (IH Ht). reflexivity.
Qed.

Lemma isdecimal_noblank (s : string) :
  isdecimal s = true -> all_chars (fun c => negb (isspace_char c)) s = true.
Proof.
  unfold isdecimal. rewrite andb_true_iff. intros [_ H].
  refine (all_chars_impl _ _ s _ H). intros c Hc.
  destruct (isdecimal_char_plain c Hc) as [-> _]. reflexivity.
Qed.

Lemma isdecimal_nodot (s : string) :
  isdecimal s = true -> all_chars (fun c => negb (Ascii.eqb c ".")) s = true.
Proof.
  unfold isdecimal. rewrite andb_true_iff. intros [_ H].
  refine (all_chars_impl _ _ s _ H). intros c Hc.
  destruct (isdecimal_char_plain c Hc) as (_ & -> & _). reflexivity.
Qed.

Lemma isdecimal_noplus (s : string) :
  isdecimal s = true -> all_chars (fun c => negb (Ascii.eqb c "+")) s = true.
Proof.
  unfold isdecimal. rewrite andb_true_iff. intros [_ H].
  refine (all_chars_impl _ _ s _ H). intros c Hc.
  destruct (isdecimal_char_plain c Hc) as (_ & _ & ->). reflexivity.
Qed.

(** The parse of three or four strings of decimal digits joined by [.] and
    [+]. *)
Lemma parse_version_joined (p0 p1 p2 : string) :
  isdecimal p0 = true -> isdecimal p1 = true -> isdecimal p2 = true ->
  (String.length p0 <= int_max_str_digits)%nat ->
  (String.length p1 <= int_max_str_digits)%nat ->
  (String.length p2 <= int_max_str_digits)%nat ->
  parse_version (p0 ++ "." ++ p1 ++ "." ++ p2)
  = inr (decimal_value p0, decimal_value p1, decimal_value p2, 0)
  /\ forall b : string,
      isdecimal b = true ->
      (String.length b <= int_max_str_digits)%nat ->
      parse_version ((p0 ++ "." ++ p1 ++ "." ++ p2) ++ "+" ++ b)
      = inr (decimal_value p0, decimal_value p1, decimal_value p2, decimal_value b).
Proof.
  intros H0 H1 H2 L0 L1 L2.
  set (vp := p0 ++ "." ++ p1 ++ "." ++ p2).
  assert (Hblank : all_chars (fun c => negb (isspace_char c)) vp = true).
  { unfold vp. rewrite !all_chars_app.
    rewrite (isdecimal_noblank _ H0), (isdecimal_noblank _ H1),
      (isdecimal_noblank _ H2). reflexivity. }
  assert (Hplus : all_chars (fun c => negb (Ascii.eqb c "+")) vp = true).
  { unfold vp. rewrite !all_chars_app.
    rewrite (isdecimal_noplus _ H0), (isdecimal_noplus _ H1),
      (isdecimal_noplus _ H2). reflexivity. }
  assert (Hsplit : map strip (split "." vp) = [p0; p1; p2]).
  { unfold vp. change ("." ++ p1 ++ "." ++ p2) with (String "." (p1 ++ "." ++ p2)).
    rewrite (split_found "." p0 _ (isdecimal_nodot _ H0)).
    change ("." ++ p2) with (String "." p2).
    rewrite (split_found "." p1 _ (isdecimal_nodot _ H1)).
    rewrite (split_absent "." p2 (isdecimal_nodot _ H2)).
    cbn [map]. rewrite !strip_noblank by (apply isdecimal_noblank; assumption).
    reflexivity. }
  clearbody vp.
  assert (Hrest : forall (v : string) (build : Z),
    (let parts := map strip (split "." vp) in
       if negb (length parts =? 3)%nat || negb (forallb isdigit parts)
       then (inl (invalid_version_format v) : result VersionTuple)
       else
         rbind (py_int (nth 0 parts EmptyString)) (fun major =>
         rbind (py_int (nth 1 parts EmptyString)) (fun minor =>
         rbind (py_int (nth 2 parts EmptyString)) (fun patch =>
         inr (major, minor, patch, build)))))
    = inr (decimal_value p0, decimal_value p1, decimal_value p2, build)).
  { intros v build. cbv zeta. rewrite Hsplit.
    cbn [length Nat.eqb negb orb forallb nth].
    rewrite !isdecimal_isdigit by assumption. cbn [andb negb].
    rewrite !py_int_decimal by assumption. reflexivity. }
  split.
  - unfold parse_version. rewrite (strip_noblank _ Hblank).
    rewrite (split1_absent "+" vp Hplus). cbn [rbind]. apply Hrest.
  - intros b Hb Lb. unfold parse_version.
    assert (Hs : strip (vp ++ "+" ++ b) = vp ++ String "+" b).
    { apply strip_noblank. rewrite !all_chars_app, Hblank.
      cbn [all_chars andb]. rewrite (isdecimal_noblank _ Hb). reflexivity. }
    rewrite Hs, (split1_found "+" vp b Hplus).
    cbv zeta. rewrite (strip_noblank b (isdecimal_noblank _ Hb)).
    rewrite (isdecimal_isdigit _ Hb), (py_int_decimal _ Hb Lb). cbn [rbind].
    apply Hrest.
Qed.

(** X2.  Reading back a printed version: for non-negative numbers whose
    decimal notation has at most [int_max_str_digits] digits,
    [parse_version(f"{a}.{b}.{c}+{d}")] is [(a, b, c, d)] and
    [parse_version(f"{a}.{b}.{c}")] is [(a, b, c, 0)]. *)
Theorem parse_version_round_trip (a b c d : Z) :
  0 <= a -> 0 <= b -> 0 <= c -> 0 <= d ->
  (String.length (str_of_int a) <= int_max_str_digits)%nat ->
  (String.length (str_of_int b) <= int_max_str_digits)%nat ->
  (String.length (str_of_int c) <= int_max_str_digits)%nat ->
  (String.length (str_of_int d) <= int_max_str_digits)%nat ->
  parse_version (version_string a b c d) = inr (a, b, c, d)
  /\ parse_version (version_string3 a b c) = inr (a, b, c, 0).
Proof.
  intros Ha Hb Hc Hd La Lb Lc Ld.
  destruct (str_of_int_decimal a Ha) as [Da Va].
  destruct (str_of_int_decimal b Hb) as [Db Vb].
  destruct (str_of_int_decimal c Hc) as [Dc Vc].
  destruct (str_of_int_decimal d Hd) as [Dd Vd].
  destruct (parse_version_joined _ _ _ Da Db Dc La Lb Lc) as [H3 H4].
  unfold version_string, version_string3.
  rewrite (H4 _ Dd Ld), H3, Va, Vb, Vc, Vd. split; reflexivity.
Qed.

Lemma parse_version_round_trip_witness :
  version_string 1 16 1 3 = "1.16.1+3"
  /\ parse_version (version_string 1 16 1 3) = inr (1, 16, 1, 3).
Proof.
  split; [reflexivity|].
  assert (L : forall n : Z,
             (String.length (str_of_int n) <=? int_max_str_digits)%nat = true ->
             (String.length (str_of_int n) <= int_max_str_digits)%nat)
    by (intros n; apply Nat.leb_le).
  exact (proj1 (parse_version_round_trip 1 16 1 3
                  ltac:(lia) ltac:(lia) ltac:(lia) ltac:(lia)
                  (L 1 eq_refl) (L 16 eq_refl) (L 1 eq_refl) (L 3 eq_refl))).
Defined.

(** ** Surrounding whitespace *)

Lemma lstrip_blank (r : string) : blank r = true -> lstrip r = EmptyString.
Proof.
  unfold blank. induction r as [|c t IH]; cbn [all_chars lstrip]; [reflexivity|].
  rewrite andb_true_iff. intros [-> Ht]. exact (IH Ht).
Qed.

Lemma rstrip_blank (r : string) : blank r = true -> rstrip r = EmptyString.
Proof.
  unfold blank. induction r as [|c t IH]; cbn [all_chars rstrip]; [reflexivity|].
  rewrite andb_true_iff. intros [-> Ht]. rewrite (IH Ht). reflexivity.
Qed.

Lemma lstrip_blank_app (l s : string) :
  blank l = true -> lstrip (l ++ s) = lstrip s.
Proof.
  unfold blank. induction l as [|c t IH]; cbn [all_chars append lstrip];
    [reflexivity|].
  rewrite andb_true_iff. intros [-> Ht]. exact (IH Ht).
Qed.

Lemma rstrip_app_blank (s r : string) :
  blank r = true -> rstrip (s ++ r) = rstrip s.
Proof.
  intros Hr. induction s as [|c t IH]; cbn [append rstrip].
  - apply rstrip_blank. exact Hr.
  - rewrite IH. reflexivity.
Qed.

Lemma strip_app_blank (s r : string) :
  blank r = true -> strip (s ++ r) = strip s.
Proof.
  intros Hr. unfold strip. induction s as [|c t IH]; cbn [append lstrip].
  - rewrite (lstrip_blank r Hr). reflexivity.
  - destruct (isspace_char c); [exact IH|].
    change (String c (t ++ r)) with (String c t ++ r).
    apply rstrip_app_blank. exact Hr.
Qed.

Lemma strip_padded (l s r : string) :
  blank l = true -> blank r = true -> strip (l ++ s ++ r) = strip s.
Proof.
  intros Hl Hr. unfold strip. rewrite (lstrip_blank_app l _ Hl).
  exact (strip_app_blank s r Hr).
Qed.

Lemma strip_or_else (x : string) :
  strip (or_else (Some x) EmptyString) = strip x.
Proof. destruct x; reflexivity. Qed.

(** X3.  Whitespace around a version string does not matter: [parse_version]
    returns the same result, or raises the same exception, for the padded
    string, and [GET /check] gives the same answer and leaves the same
    world for a padded [current]. *)
Theorem padding_is_ignored (l s r : string) :
  blank l = true -> blank r = true ->
  parse_version (l ++ s ++ r) = parse_version s
  /\ forall (cfg : Config) (requests_get : nat -> Request -> result Response)
            (b64decode_utf8 yaml_version : string -> result string)
            (now : Q) (w : World),
      check cfg requests_get b64decode_utf8 yaml_version (Some (l ++ s ++ r)) now w
      = check cfg requests_get b64decode_utf8 yaml_version (Some s) now w.
Proof.
  intros Hl Hr. pose proof (strip_padded l s r Hl Hr) as Hs. split.
  - unfold parse_version. rewrite Hs. reflexivity.
  - intros cfg requests_get b64decode_utf8 yaml_version now w.
    unfold check. rewrite !strip_or_else, Hs. reflexivity.
Qed.

Lemma padding_is_ignored_witness :
  blank "  " = true
  /\ parse_version ("  " ++ "1.16.1+3" ++ " ") = parse_version "1.16.1+3".
Proof.
  split; [reflexivity|].
  exact (proj1 (padding_is_ignored "  " "1.16.1+3" " " eq_refl eq_refl)).
Defined.

(** ** The order behind [update_available] *)

Lemma update_available_lex (a1 a2 a3 a4 b1 b2 b3 b4 : Z) :
  update_available (a1, a2, a3, a4) (b1, b2, b3, b4) = true
  <-> (b1 < a1 \/ (a1 = b1 /\ (b2 < a2 \/ (a2 = b2 /\ (b3 < a3 \/ (a3 = b3 /\ b4 < a4)))))).
Proof.
  unfold update_available, tuple_gtb, first3, item3. cbn [tuple_ltb].
  rewrite Z.gtb_ltb.
  repeat match goal with
         | |- context [Z.eqb ?x ?y] => destruct (Z.eqb_spec x y)
         | |- context [Z.ltb ?x ?y] => destruct (Z.ltb_spec x y)
         end; split; intros Hlex; try discriminate; try reflexivity; lia.
Qed.

Lemma update_available_irreflexive (t : VersionTuple) :
  update_available t t = false.
Proof.
  destruct t as [[[a1 a2] a3] a4].
  destruct (update_available _ _) eqn:E; [|reflexivity].
  apply update_available_lex in E. lia.
Qed.

(** X4.  The relation "[lat] is an update of [cur]" computed by [check] is a
    strict total order on version tuples: no tuple is an update of itself,
    two tuples are never updates of each other, updates chain, and of two
    different tuples one is an update of the other. *)
Theorem update_available_strict_total_order :
  (forall t : VersionTuple, update_available t t = false)
  /\ (forall a b : VersionTuple,
         update_available a b = true -> update_available b a = false)
  /\ (forall a b c : VersionTuple,
         update_available a b = true -> update_available b c = true ->
         update_available a c = true)
  /\ (forall a b : VersionTuple,
         a <> b -> update_available a b = true \/ update_available b a = true).
Proof.
  split; [|split; [|split]].
  - intros [[[a1 a2] a3] a4].
    destruct (update_available _ _) eqn:E; [|reflexivity].
    apply update_available_lex in E. lia.
  - intros [[[a1 a2] a3] a4] [[[b1 b2] b3] b4] H.
    apply update_available_lex in H.
    destruct (update_available (b1, b2, b3, b4) _) eqn:E; [|reflexivity].
    apply update_available_lex in E. lia.
  - intros [[[a1 a2] a3] a4] [[[b1 b2] b3] b4] [[[c1 c2] c3] c4] H1 H2.
    apply update_available_lex in H1, H2. apply update_available_lex. lia.
  - intros [[[a1 a2] a3] a4] [[[b1 b2] b3] b4] Hne.
    rewrite !update_available_lex.
    assert (a1 <> b1 \/ a2 <> b2 \/ a3 <> b3 \/ a4 <> b4).
    { destruct (Z.eq_dec a1 b1); [|auto].
      destruct (Z.eq_dec a2 b2); [|auto].
      destruct (Z.eq_dec a3 b3); [|auto].
      destruct (Z.eq_dec a4 b4); [|auto].
      subst. contradiction Hne. reflexivity. }
    lia.
Qed.

Lemma update_available_strict_total_order_witness :
  update_available (1, 16, 1, 3) (1, 16, 0, 0) = true
  /\ update_available (1, 16, 0, 0) (1, 16, 1, 3) = false.
Proof.
  split; [reflexivity|].
  exact (proj1 (proj2 update_available_strict_total_order)
           (1, 16, 1, 3) (1, 16, 0, 0) eq_refl).
Defined.

(** ** The fetch, the refresh and the handlers, continued *)

Section ServiceFurther.

Variable cfg : Config.
Variable requests_get : nat -> Request -> result Response.
Variable b64decode_utf8 : string -> result string.
Variable yaml_version : string -> result string.

Local Notation "'fetch'" := (_fetch_pubspec_from_github cfg requests_get b64decode_utf8).
Local Notation "'refresh'" := (_refresh_cache cfg requests_get b64decode_utf8 yaml_version).
Local Notation "'answer'" := (upstream_answer cfg requests_get).
Local Notation "'GET_version'" := (version cfg requests_get b64decode_utf8 yaml_version).
Local Notation "'GET_check'" := (check cfg requests_get b64decode_utf8 yaml_version).

(** X5.  The fetch only sends: it never writes to the cache, and the log of
    upstream requests either stays as it was (when the configuration is
    incomplete) or grows by the one request of this fetch. *)
Theorem fetch_only_sends (w : World) :
  w_cache (snd (fetch w)) = w_cache w
  /\ (config_ok cfg = false -> w_calls (snd (fetch w)) = w_calls w)
  /\ (config_ok cfg = true ->
      w_calls (snd (fetch w)) = (w_calls w ++ [fetch_request cfg (w_cache w)])%list).
Proof.
  split; [apply fetch_cache|]. split; intros Hc.
  - rewrite (fetch_config_missing _ _ _ w Hc). reflexivity.
  - rewrite (fetch_configured _ _ _ w Hc). reflexivity.
Qed.

(** X6.  With owner, repository or path missing the upstream is never contacted:
    a refresh that is not a cache hit sends nothing, records the error
    "Missing GitHub configuration (owner/repo/path)." and keeps the cached
    version. *)
Theorem refresh_without_configuration (force : bool) (now : Q) (w : World) :
  config_ok cfg = false ->
  let w' := snd (refresh force now w) in
  w_calls w' = w_calls w
  /\ (cache_hit force now (w_cache w) = false ->
      Cache.error (w_cache w')
      = Some "Missing GitHub configuration (owner/repo/path)."
      /\ Cache.version (w_cache w') = Cache.version (w_cache w)
      /\ Cache.raw_version (w_cache w') = Cache.raw_version (w_cache w)).
Proof.
  intros Hc. cbv zeta.
  destruct (cache_hit force now (w_cache w)) eqn:Eh.
  - rewrite (refresh_hit _ _ _ _ _ _ _ Eh). split; [reflexivity|discriminate].
  - rewrite (refresh_miss _ _ _ _ _ _ _ Eh). cbn [snd].
    rewrite (fetch_config_missing _ _ _ w Hc). cbn [fst snd].
    split; [reflexivity|]. intros _. repeat split; reflexivity.
Qed.

(** X7.  A 200 answer.  The fetch returns the decoded content with the [ETag]
    header of the response when the payload says [encoding: base64] and has
    a non-empty [content]; it raises "Unexpected GitHub contents response"
    when the encoding is anything else or the content is missing or empty;
    and it passes on the exception of [r.json()] or of the decoding. *)
Theorem fetch_status_200 (w : World) (r : Response) :
  config_ok cfg = true ->
  answer w = inr r ->
  status_code r = 200 ->
  (forall e, json r = inl e -> fst (fetch w) = inl e)
  /\ (forall payload,
         json r = inr payload ->
         encoding payload <> Some "base64" \/ truthy (content payload) = false ->
         fst (fetch w)
         = inl (RuntimeError
                  "Unexpected GitHub contents response (missing base64 content)."))
  /\ (forall payload c,
         json r = inr payload ->
         encoding payload = Some "base64" ->
         content payload = Some c -> nonempty c = true ->
         fst (fetch w)
         = match b64decode_utf8 c with
           | inl e => inl e
           | inr t => inr {| unchanged := false; fetched_etag := header_ETag r;
                             pubspec_text := Some t |}
           end).
Proof.
  intros Hc Ha H200.
  rewrite (fetch_configured _ _ _ w Hc). cbn [fst]. rewrite Ha, H200.
  cbn [Z.eqb Pos.eqb andb negb].
  split; [|split].
  - intros e ->. reflexivity.
  - intros payload -> Hbad.
    destruct (encoding payload) as [e|] eqn:Ee.
    + destruct (String.eqb_spec e "base64") as [->|Hne].
      * destruct Hbad as [Hbad | ->]; [congruence|reflexivity].
      * reflexivity.
    + reflexivity.
  - intros payload c -> -> Hcontent Hne. rewrite Hcontent.
    cbn [String.eqb truthy or_else negb orb]. rewrite Hne.
    cbn [negb orb]. destruct (b64decode_utf8 c); reflexivity.
Qed.

(** X8.  A refresh that fetches new content and parses it stores all of it:
    [version], [build] and [raw_version] as [_parse_pubspec] returned them,
    the new [etag], [source = github], no [error], [last_checked_at =
    int(now)] and [expires_at = now + CACHE_TTL_SECONDS]; and
    [raw_version] is then a non-empty stripped string. *)
Theorem refresh_stores_manifest
    (force : bool) (now : Q) (w : World) (f : Fetched) (t : string)
    (v : string) (build : option Z) (raw : string) :
  cache_hit force now (w_cache w) = false ->
  fst (fetch w) = inr f ->
  unchanged f = false ->
  pubspec_text f = Some t ->
  _parse_pubspec yaml_version t = inr (v, build, raw) ->
  w_cache (snd (refresh force now w))
  = Cache.mk (time_add now (CACHE_TTL_SECONDS cfg)) (Some v) build (Some raw)
             (Some "github") (fetched_etag f) (Some (int_of_time now)) None
  /\ nonempty raw = true /\ strip raw = raw.
Proof.
  intros Hmiss Hf Hu Ht Hp. split.
  - rewrite (refresh_miss _ _ _ _ _ _ _ Hmiss). cbn [snd]. rewrite Hf, Hu.
    unfold parse_fetched. rewrite Ht, Hp. reflexivity.
  - revert Hp. unfold _parse_pubspec.
    destruct (yaml_version t) as [e|field]; cbn [rbind]; [discriminate|].
    destruct (nonempty (strip field)) eqn:Hne; cbn [negb]; [|discriminate].
    assert (Hraw : forall r : result (string * option Z * string),
               (r = inr (v, build, raw)) ->
               (forall x y z, r = inr (x, y, z) -> z = strip field) ->
               nonempty raw = true /\ strip raw = raw).
    { intros r Hr Hz. rewrite (Hz _ _ _ Hr). split; [exact Hne|].
      apply strip_idempotent. }
    intros Hp. refine (Hraw _ Hp _). clear Hp Hraw.
    destruct (split1 "+" (strip field)) as [[x b]|].
    + cbv zeta. destruct (isdigit (strip b)).
      * destruct (py_int (strip b)); cbn [rbind]; [discriminate|].
        intros ? ? ? [= _ _ <-]. reflexivity.
      * cbn [rbind]. intros ? ? ? [= _ _ <-]. reflexivity.
    + intros ? ? ? [= _ _ <-]. reflexivity.
Qed.


Lemma _parse_pubspec_inv (t v raw : string) (build : option Z) :
  _parse_pubspec yaml_version t = inr (v, build, raw) ->
  exists field : string,
    yaml_version t = inr field
    /\ raw = strip field
    /\ nonempty raw = true
    /\ v = strip (version_part_of raw)
    /\ build = manifest_build raw.
Proof.
  unfold _parse_pubspec, manifest_build, version_part_of, build_part_of.
  destruct (yaml_version t) as [e|field]; cbn [rbind]; [discriminate|].
  destruct (nonempty (strip field)) eqn:Hne; cbn [negb]; [|discriminate].
  intros H. exists field. split; [reflexivity|]. revert H.
  destruct (split1 "+" (strip field)) as [[x b]|] eqn:Es.
  - cbv zeta. destruct (isdigit (strip b)) eqn:Ed.
    + destruct (py_int (strip b)) as [e|n] eqn:Ei; cbn [rbind]; [discriminate|].
      intros [= <- <- <-]. rewrite Es.
      apply py_int_inv in Ei. destruct Ei as [-> ->].
      repeat split; auto.
    + cbn [rbind]. intros [= <- <- <-]. rewrite Es.
      rewrite (not_isdigit_not_isdecimal _ Ed). repeat split; auto.
  - intros [= <- <- <-]. rewrite Es.
    repeat split; auto. symmetry. apply strip_idempotent.
Qed.

(** X9.  No handler lets an exception escape, whatever the upstream, the
    decoding and the manifest reader return or raise: a refresh always returns, [GET /health] answers 200,
    [GET /version] answers 200 or 502, and [GET /check] answers 200, 400 or
    502. *)
Theorem handlers_always_answer (now : Q) (w : World) :
  (forall force : bool, fst (refresh force now w) = inr tt)
  /\ health w = (inr ([("ok", JBool true)], 200), w)
  /\ (forall force_arg : option string,
         exists resp : HttpResponse,
           fst (GET_version force_arg now w) = inr resp
           /\ (status resp = 200 \/ status resp = 502))
  /\ (forall current_arg : option string,
         exists resp : HttpResponse,
           fst (GET_check current_arg now w) = inr resp
           /\ (status resp = 200 \/ status resp = 400 \/ status resp = 502)).
Proof.
  split; [intros force; apply refresh_returns|].
  split; [reflexivity|]. split.
  - intros force_arg. rewrite version_unfold. cbv zeta. cbn [fst].
    eexists. split; [reflexivity|].
    destruct (negb _); cbn; auto.
  - intros current_arg.
    destruct (nonempty (strip (or_else current_arg EmptyString))) eqn:Hcur.
    + pose proof (check_unfold cfg requests_get b64decode_utf8 yaml_version
                    current_arg now w) as Hchk.
      cbv zeta in Hchk. rewrite (Hchk Hcur). cbn [fst].
      destruct (negb _); [eexists; split; [reflexivity|cbn; auto]|].
      destruct (rbind _ _); eexists; (split; [reflexivity|cbn; auto]).
    + unfold check. rewrite Hcur. cbn [negb ret fst].
      eexists. split; [reflexivity|cbn; auto].
Qed.

(** X10.  [GET /check] without a usable [current] (absent, empty or blank) is
    answered 400 "Missing 'current' query param" at once: no refresh runs,
    no request is sent, and the cache is not touched. *)
Theorem check_requires_current (current_arg : option string) (now : Q) (w : World) :
  (current_arg = None \/ exists s, current_arg = Some s /\ blank s = true) ->
  GET_check current_arg now w
  = (inr ([("ok", JBool false);
           ("error", JStr "Missing 'current' query param")], 400), w).
Proof.
  intros H.
  assert (Hcur : strip (or_else current_arg EmptyString) = EmptyString).
  { destruct H as [-> | (s & -> & Hs)]; [reflexivity|].
    rewrite strip_or_else. unfold strip. rewrite (lstrip_blank s Hs).
    reflexivity. }
  unfold check. rewrite Hcur. reflexivity.
Qed.

(** X11.  With a non-blank [current], the 502 comes first: when the refresh
    leaves no raw version in the cache, [GET /check] answers 502 with the
    cached error text ("unknown" when there is none) without looking at
    [current], so a malformed [current] is not reported as 400 then. *)
Theorem check_without_latest (current_arg : option string) (now : Q) (w : World) :
  nonempty (strip (or_else current_arg EmptyString)) = true ->
  truthy (Cache.raw_version (w_cache (snd (refresh false now w)))) = false ->
  GET_check current_arg now w
  = (inr ([("ok", JBool false);
           ("error",
            JStr (or_else (Cache.error (w_cache (snd (refresh false now w))))
                          "unknown"))], 502),
     snd (refresh false now w)).
Proof.
  intros Hcur Hraw.
  pose proof (check_unfold cfg requests_get b64decode_utf8 yaml_version
                current_arg now w) as Hchk.
  cbv zeta in Hchk. rewrite (Hchk Hcur), Hraw. reflexivity.
Qed.

(** X12.  Only the literal [force=1] forces a refresh.  With any other value (or
    none) and an unexpired cached version, [GET /version] answers 200 from
    the cache and sends nothing; with [force=1] and a complete
    configuration it always sends exactly one request. *)
Theorem version_force_flag (force_arg : option string) (now : Q) (w : World) :
  (force_arg <> Some "1" ->
   (now < Cache.expires_at (w_cache w))%Q ->
   version_cached (w_cache w) = true ->
   snd (GET_version force_arg now w) = w
   /\ status_of (fst (GET_version force_arg now w)) = Some 200)
  /\ (force_arg = Some "1" ->
      config_ok cfg = true ->
      w_calls (snd (GET_version force_arg now w))
      = (w_calls w ++ [fetch_request cfg (w_cache w)])%list).
Proof.
  split.
  - intros Hf Hlt Hv.
    assert (Hflag : force_flag force_arg = false).
    { unfold force_flag. destruct force_arg as [s|]; [|reflexivity].
      destruct (String.eqb_spec s "1"); [congruence|reflexivity]. }
    assert (Hhit : cache_hit (force_flag force_arg) now (w_cache w) = true).
    { unfold cache_hit. rewrite Hflag, Hv.
      apply time_ltb_lt in Hlt. rewrite Hlt. reflexivity. }
    rewrite version_unfold. cbv zeta.
    rewrite (refresh_hit _ _ _ _ _ _ _ Hhit). cbn [fst snd].
    rewrite Hv. split; reflexivity.
  - intros -> Hc. rewrite version_unfold. cbv zeta. cbn [snd].
    apply refresh_expired_calls_upstream; [exact Hc|reflexivity].
Qed.

(** *** The version fields stay consistent *)

Lemma refresh_consistent (force : bool) (now : Q) (w : World) :
  cache_consistent (w_cache w) ->
  cache_consistent (w_cache (snd (refresh force now w))).
Proof.
  intros Hwf.
  destruct (cache_hit force now (w_cache w)) eqn:Eh.
  { rewrite (refresh_hit _ _ _ _ _ _ _ Eh). exact Hwf. }
  rewrite (refresh_miss _ _ _ _ _ _ _ Eh). cbn [snd].
  assert (Hfail : forall e, cache_consistent (after_failure cfg e now (w_cache w))).
  { intros e. unfold cache_consistent in *. cbn.
    destruct (Cache.raw_version (w_cache w)); exact Hwf. }
  destruct (fst (fetch w)) as [e|f] eqn:Ef; [apply Hfail|].
  destruct (unchanged f) eqn:Eu.
  - destruct (fetch_unchanged_inv _ _ _ w f Ef Eu) as (_ & _ & Hv & _).
    unfold cache_consistent, version_cached in *. cbn.
    destruct (Cache.raw_version (w_cache w)) as [raw|].
    + destruct Hwf as (H1 & H2 & H3 & H4 & _). repeat split; auto.
    + destruct Hwf as (H1 & _). rewrite H1 in Hv. discriminate.
  - unfold parse_fetched.
    destruct (pubspec_text f) as [t|]; [|apply Hfail].
    destruct (_parse_pubspec yaml_version t) as [e|[[v build] raw]] eqn:Ep;
      [apply Hfail|].
    destruct (_parse_pubspec_inv _ _ _ _ Ep) as (field & _ & Hraw & Hne & Hv & Hb).
    unfold cache_consistent. cbn.
    repeat split; auto.
    + rewrite Hraw. apply strip_idempotent.
    + congruence.
Qed.

Lemma version_world (force_arg : option string) (now : Q) (w : World) :
  snd (GET_version force_arg now w) = snd (refresh (force_flag force_arg) now w).
Proof. rewrite version_unfold. reflexivity. Qed.

Lemma check_world (current_arg : option string) (now : Q) (w : World) :
  snd (GET_check current_arg now w) = w
  \/ snd (GET_check current_arg now w) = snd (refresh false now w).
Proof.
  destruct (nonempty (strip (or_else current_arg EmptyString))) eqn:Hcur.
  - right.
    pose proof (check_unfold cfg requests_get b64decode_utf8 yaml_version
                  current_arg now w) as Hchk.
    cbv zeta in Hchk. rewrite (Hchk Hcur). reflexivity.
  - left. unfold check. rewrite Hcur. reflexivity.
Qed.

Lemma reachable_consistent_cache (w : World) :
  reachable cfg requests_get b64decode_utf8 yaml_version w ->
  cache_consistent (w_cache w).
Proof.
  intros Hr.
  induction Hr as [|w0 _ IH|w0 force_arg now _ IH|w0 current_arg now _ IH].
  - cbn. repeat split; reflexivity.
  - exact IH.
  - rewrite version_world. apply refresh_consistent. exact IH.
  - destruct (check_world current_arg now w0) as [-> | ->];
      [exact IH | apply refresh_consistent; exact IH].
Qed.

(** X13.  In every world the service can reach, the version fields of the cache
    are consistent: either nothing is stored, or [raw_version] is a
    non-empty stripped string from which [version] and [build] derive as in
    [_parse_pubspec].  So a cached version always comes with its raw
    version, and a 200 answer of [GET /version] always carries a non-empty
    [raw]. *)
Theorem reachable_cache_consistent (w : World) :
  reachable cfg requests_get b64decode_utf8 yaml_version w ->
  cache_consistent (w_cache w)
  /\ (version_cached (w_cache w) = true ->
      truthy (Cache.raw_version (w_cache w)) = true)
  /\ (forall (force_arg : option string) (now : Q) (resp : HttpResponse),
         fst (GET_version force_arg now w) = inr resp ->
         status resp = 200 ->
         exists raw : string,
           In ("raw", JStr raw) (body resp) /\ nonempty raw = true).
Proof.
  intros Hreach.
  pose proof reachable_consistent_cache as Hwf.
  assert (Hraw : forall c, cache_consistent c -> version_cached c = true ->
                 exists raw, Cache.raw_version c = Some raw /\ nonempty raw = true).
  { intros c Hc Hv. unfold cache_consistent, version_cached in *.
    destruct (Cache.raw_version c) as [raw|].
    - exists raw. split; [reflexivity|]. apply Hc.
    - destruct Hc as [Hc _]. rewrite Hc in Hv. discriminate. }
  split; [exact (Hwf w Hreach)|]. split.
  - intros Hv. destruct (Hraw _ (Hwf w Hreach) Hv) as (raw & -> & Hne). exact Hne.
  - intros force_arg now resp.
    pose proof (Hwf _ (reachable_version _ _ _ _ w force_arg now Hreach)) as Hwf'.
    rewrite version_world in Hwf'. rewrite version_unfold. cbv zeta. cbn [fst].
    destruct (version_cached _) eqn:Hv; cbn [negb].
    + intros [= <-] _. destruct (Hraw _ Hwf' Hv) as (raw & Hr & Hne).
      exists raw. split; [|exact Hne]. rewrite Hr. cbn. auto 10.
    + intros [= <-]. discriminate.
Qed.

(** *** Requests *)

(** X14.  One handler run costs at most one upstream request: after [GET
    /version] or [GET /check] the log of requests is what it was, or what it
    was followed by the one request of the fetch. *)
Theorem handlers_send_at_most_one (now : Q) (w : World) :
  (forall force_arg : option string,
      w_calls (snd (GET_version force_arg now w)) = w_calls w
      \/ w_calls (snd (GET_version force_arg now w))
         = (w_calls w ++ [fetch_request cfg (w_cache w)])%list)
  /\ (forall current_arg : option string,
         w_calls (snd (GET_check current_arg now w)) = w_calls w
         \/ w_calls (snd (GET_check current_arg now w))
            = (w_calls w ++ [fetch_request cfg (w_cache w)])%list).
Proof.
  split.
  - intros force_arg. rewrite version_world. apply refresh_calls.
  - intros current_arg.
    destruct (check_world current_arg now w) as [-> | ->];
      [left; reflexivity | apply refresh_calls].
Qed.

Lemma header_if_none_match (c : Cache.t) :
  header "If-None-Match" (headers (fetch_request cfg c))
  = if truthy (Cache.etag c) then Cache.etag c else None.
Proof.
  unfold fetch_request, _github_headers, header. cbn [headers].
  destruct (nonempty (GITHUB_TOKEN cfg));
    destruct (Cache.etag c) as [e|]; try reflexivity;
    cbn [truthy]; destruct (nonempty e); reflexivity.
Qed.

Lemma header_authorization (c : Cache.t) :
  header "Authorization" (headers (fetch_request cfg c))
  = if nonempty (GITHUB_TOKEN cfg)
    then Some ("Bearer " ++ GITHUB_TOKEN cfg) else None.
Proof.
  unfold fetch_request, _github_headers, header. cbn [headers].
  destruct (nonempty (GITHUB_TOKEN cfg));
    destruct (Cache.etag c) as [e|]; try reflexivity;
    destruct (nonempty e); reflexivity.
Qed.

(** X15.  The etag is threaded from one fetch into the next.  The request of a
    fetch carries [If-None-Match] exactly when a non-empty etag is cached,
    with that etag as its value, and [Authorization: Bearer <token>] exactly
    when a token is configured; and after a refresh has stored new content
    the next request carries the [ETag] of that response (none when the
    response had none or an empty one). *)
Theorem etag_is_revalidated :
  (forall c : Cache.t,
      header "If-None-Match" (headers (fetch_request cfg c))
      = (if truthy (Cache.etag c) then Cache.etag c else None)
      /\ header "Authorization" (headers (fetch_request cfg c))
         = (if nonempty (GITHUB_TOKEN cfg)
            then Some ("Bearer " ++ GITHUB_TOKEN cfg) else None))
  /\ (forall (force : bool) (now : Q) (w : World) (f : Fetched)
             (parsed : string * option Z * string),
         cache_hit force now (w_cache w) = false ->
         fst (fetch w) = inr f ->
         unchanged f = false ->
         parse_fetched yaml_version f = inr parsed ->
         header "If-None-Match"
           (headers (fetch_request cfg (w_cache (snd (refresh force now w)))))
         = (if truthy (fetched_etag f) then fetched_etag f else None)).
Proof.
  split.
  - intros c. split; [apply header_if_none_match | apply header_authorization].
  - intros force now w f [[v build] raw] Hmiss Hf Hu Hp.
    rewrite header_if_none_match.
    rewrite (refresh_miss _ _ _ _ _ _ _ Hmiss). cbn [snd]. rewrite Hf, Hu, Hp.
    reflexivity.
Qed.

(** *** What a refresh keeps *)

(** X16.  The cached version only ever changes when a fetch returned new content
    and that content parsed: if [version], [build], [raw_version] or [etag]
    differs after a refresh, the refresh was not a cache hit, the fetch
    returned content (not "unchanged", not an exception) and
    [_parse_pubspec] accepted it. *)
Theorem version_changes_only_on_new_content (force : bool) (now : Q) (w : World) :
  let c := w_cache w in
  let c' := w_cache (snd (refresh force now w)) in
  (Cache.version c' <> Cache.version c
   \/ Cache.build c' <> Cache.build c
   \/ Cache.raw_version c' <> Cache.raw_version c
   \/ Cache.etag c' <> Cache.etag c) ->
  cache_hit force now c = false
  /\ exists (f : Fetched) (t v raw : string) (build : option Z),
      fst (fetch w) = inr f
      /\ unchanged f = false
      /\ pubspec_text f = Some t
      /\ _parse_pubspec yaml_version t = inr (v, build, raw)
      /\ c' = after_stored cfg now v build raw (fetched_etag f).
Proof.
  cbv zeta.
  destruct (cache_hit force now (w_cache w)) eqn:Eh.
  { rewrite (refresh_hit _ _ _ _ _ _ _ Eh). cbn [snd]. intros H.
    exfalso. decompose [or] H; congruence. }
  rewrite (refresh_miss _ _ _ _ _ _ _ Eh). cbn [snd].
  assert (Hkeep : forall e,
    Cache.version (after_failure cfg e now (w_cache w)) <> Cache.version (w_cache w)
    \/ Cache.build (after_failure cfg e now (w_cache w)) <> Cache.build (w_cache w)
    \/ Cache.raw_version (after_failure cfg e now (w_cache w))
       <> Cache.raw_version (w_cache w)
    \/ Cache.etag (after_failure cfg e now (w_cache w)) <> Cache.etag (w_cache w) ->
    False).
  { intros e H. cbn in H. decompose [or] H; congruence. }
  destruct (fst (fetch w)) as [e|f] eqn:Ef.
  { intros H. exfalso. exact (Hkeep e H). }
  destruct (unchanged f) eqn:Eu.
  { intros H. exfalso. cbn in H. decompose [or] H; congruence. }
  unfold parse_fetched.
  destruct (pubspec_text f) as [t|] eqn:Et.
  2:{ intros H. exfalso. exact (Hkeep _ H). }
  destruct (_parse_pubspec yaml_version t) as [e|[[v build] raw]] eqn:Ep.
  { intros H. exfalso. exact (Hkeep e H). }
  intros _. split; [reflexivity|].
  exists f, t, v, raw, build. repeat split; auto.
Qed.

(** *** Upstream errors *)

Lemma prefix_slice_length (n : nat) (s : string) :
  String.length (prefix_slice n s) = Nat.min n (String.length s).
Proof.
  unfold prefix_slice. revert s.
  induction n as [|n IH]; intros [|c t]; cbn; auto.
Qed.

Lemma prefix_slice_prefix (n : nat) (s : string) :
  String.prefix (prefix_slice n s) s = true.
Proof.
  unfold prefix_slice. revert s.
  induction n as [|n IH]; intros [|c t]; cbn; auto.
  destruct (ascii_dec c c); [apply IH|congruence].
Qed.

(** X17.  An answer with a status other than 200 (and other than a 304 honoured
    for a cached version) is recorded, not raised: the refresh stores
    "GitHub API error: <status> - <body>" with at most the first 300
    characters of the body, and keeps the cached version. *)
Theorem upstream_error_is_recorded (force : bool) (now : Q) (w : World) (r : Response) :
  config_ok cfg = true ->
  cache_hit force now (w_cache w) = false ->
  answer w = inr r ->
  status_code r <> 200 ->
  status_code r <> 304 \/ version_cached (w_cache w) = false ->
  let c' := w_cache (snd (refresh force now w)) in
  Cache.error c'
  = Some ("GitHub API error: " ++ str_of_int (status_code r) ++ " - "
          ++ prefix_slice 300 (text r))
  /\ (String.length (prefix_slice 300 (text r)) <= 300)%nat
  /\ String.prefix (prefix_slice 300 (text r)) (text r) = true
  /\ Cache.version c' = Cache.version (w_cache w)
  /\ Cache.build c' = Cache.build (w_cache w)
  /\ Cache.raw_version c' = Cache.raw_version (w_cache w).
Proof.
  intros Hc Hmiss Ha H200 H304. cbv zeta.
  assert (Hf : fst (fetch w) = inl (api_error r)).
  { rewrite (fetch_configured _ _ _ w Hc). cbn [fst]. rewrite Ha.
    assert (E304 : (status_code r =? 304) && version_cached (w_cache w) = false).
    { destruct H304 as [H | ->]; [|apply andb_false_r].
      apply Z.eqb_neq in H. rewrite H. reflexivity. }
    rewrite E304. apply Z.eqb_neq in H200. rewrite H200. reflexivity. }
  rewrite (refresh_miss _ _ _ _ _ _ _ Hmiss). cbn [snd]. rewrite Hf.
  split; [reflexivity|]. split.
  - rewrite prefix_slice_length. apply Nat.le_min_l.
  - split; [apply prefix_slice_prefix|]. repeat split; reflexivity.
Qed.

(** *** The comparison in [GET /check] *)

(** X18.  Two strings that parse to the same tuple are the same version to [GET
    /check], however they are written: it answers 200 with
    [update_available: false]. *)
Theorem check_equal_versions
    (current_arg : option string) (now : Q) (w : World)
    (latest : string) (t : VersionTuple) :
  let current := strip (or_else current_arg EmptyString) in
  let w1 := snd (refresh false now w) in
  nonempty current = true ->
  Cache.raw_version (w_cache w1) = Some latest ->
  nonempty latest = true ->
  parse_version current = inr t ->
  parse_version latest = inr t ->
  GET_check current_arg now w
  = (inr ([("ok", JBool true);
           ("update_available", JBool false);
           ("current", JStr current);
           ("latest", JStr latest)], 200), w1).
Proof.
  cbv zeta. intros Hcur Hraw Hlatest Hc Hl.
  pose proof (check_unfold cfg requests_get b64decode_utf8 yaml_version
                current_arg now w) as Hchk.
  cbv zeta in Hchk. rewrite (Hchk Hcur), Hraw.
  cbn [truthy or_else]. rewrite Hlatest. cbn [negb].
  rewrite Hc. cbn [rbind]. rewrite Hl. cbn [rbind].
  rewrite (update_available_irreflexive t). reflexivity.
Qed.

(** X19.  In every reachable world the build the cache holds is the build the
    comparator reads from the cached raw version, [None] standing for 0;
    and a cached build is never negative. *)
Theorem cached_build_matches_comparator (w : World) :
  reachable cfg requests_get b64decode_utf8 yaml_version w ->
  (forall n : Z, Cache.build (w_cache w) = Some n -> 0 <= n)
  /\ (forall (raw : string) (major minor patch build : Z),
         Cache.raw_version (w_cache w) = Some raw ->
         parse_version raw = inr (major, minor, patch, build) ->
         Cache.build (w_cache w) = Some build
         \/ (Cache.build (w_cache w) = None /\ build = 0)).
Proof.
  intros Hreach.
  pose proof (reachable_consistent_cache w Hreach) as Hwf.
  unfold cache_consistent in Hwf. split.
  - intros n Hn. destruct (Cache.raw_version (w_cache w)) as [raw|].
    + destruct Hwf as (_ & _ & _ & Hb & _). rewrite Hb in Hn.
      unfold manifest_build in Hn.
      destruct (build_part_of raw) as [b|]; [|discriminate].
      destruct (isdecimal (strip b)) eqn:Ed; [|discriminate].
      injection Hn as <-. apply decimal_value_nonneg. exact Ed.
    + destruct Hwf as (_ & Hb & _). congruence.
  - intros raw major minor patch build Hraw Hp. rewrite Hraw in Hwf.
    destruct Hwf as (_ & Hs & _ & Hb & _). rewrite Hb.
    destruct (parse_version_inv _ _ Hp) as (p0 & p1 & p2 & _ & _ & _ & _ & Ht & Hd).
    rewrite Hs in Ht, Hd. injection Ht as _ _ _ ->.
    unfold manifest_build.
    destruct (build_part_of raw) as [b|]; [|right; split; reflexivity].
    destruct (isdigit (strip b)) eqn:Ed.
    + rewrite (Hd b eq_refl Ed). left. reflexivity.
    + rewrite (not_isdigit_not_isdecimal _ Ed). right. split; reflexivity.
Qed.

(** X20.  In a reachable world, while a version is cached and not expired, [GET
    /check] with a non-blank [current] never answers 502: it sends nothing
    and answers 200 or 400. *)
Theorem check_ready_when_version_cached
    (current_arg : option string) (now : Q) (w : World) :
  reachable cfg requests_get b64decode_utf8 yaml_version w ->
  version_cached (w_cache w) = true ->
  (now < Cache.expires_at (w_cache w))%Q ->
  nonempty (strip (or_else current_arg EmptyString)) = true ->
  snd (GET_check current_arg now w) = w
  /\ (status_of (fst (GET_check current_arg now w)) = Some 200
      \/ status_of (fst (GET_check current_arg now w)) = Some 400).
Proof.
  intros Hreach Hv Hlt Hcur.
  assert (Hhit : cache_hit false now (w_cache w) = true).
  { unfold cache_hit. rewrite Hv. apply time_ltb_lt in Hlt. rewrite Hlt.
    reflexivity. }
  pose proof (check_unfold cfg requests_get b64decode_utf8 yaml_version
                current_arg now w) as Hchk.
  cbv zeta in Hchk. rewrite (Hchk Hcur).
  rewrite (refresh_hit _ _ _ _ _ _ _ Hhit). cbn [fst snd].
  pose proof (reachable_consistent_cache w Hreach) as Hwf.
  unfold cache_consistent, version_cached in *.
  destruct (Cache.raw_version (w_cache w)) as [raw|].
  - destruct Hwf as (Hne & _). cbn [truthy]. rewrite Hne. cbn [negb].
    split; [reflexivity|]. clear Hchk. cbv zeta.
    destruct (rbind _ _); [right | left]; reflexivity.
  - destruct Hwf as (Hnone & _). rewrite Hnone in Hv. discriminate.
Qed.
End ServiceFurther.

(** ** The further properties at concrete inputs *)

Lemma fetch_only_sends_witness :
  config_ok Demo.cfg = true
  /\ w_calls (snd (_fetch_pubspec_from_github Demo.cfg serving_1_16_1
                     Demo.b64decode_utf8 initial_world))
     = [fetch_request Demo.cfg _cache].
Proof.
  split; [reflexivity|].
  exact (proj2 (proj2 (fetch_only_sends Demo.cfg serving_1_16_1
                         Demo.b64decode_utf8 initial_world)) eq_refl).
Defined.

Lemma refresh_without_configuration_witness :
  config_ok unconfigured = false
  /\ w_calls (snd (_refresh_cache unconfigured serving_1_16_1 Demo.b64decode_utf8
                     Demo.yaml_version true 1000%Q initial_world))
     = w_calls initial_world.
Proof.
  split; [reflexivity|].
  exact (proj1 (refresh_without_configuration unconfigured serving_1_16_1
                  Demo.b64decode_utf8 Demo.yaml_version true 1000%Q
                  initial_world eq_refl)).
Defined.

Lemma fetch_status_200_witness :
  status_code (Demo.ok_response "dmVyc2lvbjogMS4xNi4xKzMK" "W/abc") = 200
  /\ fst (_fetch_pubspec_from_github Demo.cfg serving_1_16_1 Demo.b64decode_utf8
            initial_world)
     = match Demo.b64decode_utf8 "dmVyc2lvbjogMS4xNi4xKzMK" with
       | inl e => inl e
       | inr t => inr {| unchanged := false; fetched_etag := Some "W/abc";
                         pubspec_text := Some t |}
       end.
Proof.
  split; [reflexivity|].
  exact (proj2 (proj2
           (fetch_status_200 Demo.cfg serving_1_16_1 Demo.b64decode_utf8
              initial_world (Demo.ok_response "dmVyc2lvbjogMS4xNi4xKzMK" "W/abc")
              eq_refl eq_refl eq_refl))
           {| content := Some "dmVyc2lvbjogMS4xNi4xKzMK";
              encoding := Some "base64" |}
           "dmVyc2lvbjogMS4xNi4xKzMK" eq_refl eq_refl eq_refl eq_refl).
Defined.

Lemma refresh_stores_manifest_witness :
  cache_hit false 1000%Q (w_cache initial_world) = false
  /\ w_cache (snd (_refresh_cache Demo.cfg serving_1_16_1 Demo.b64decode_utf8
                     Demo.yaml_version false 1000%Q initial_world))
     = Cache.mk (time_add 1000%Q 60) (Some "1.16.1") (Some 3) (Some "1.16.1+3")
                (Some "github") (Some "W/abc") (Some (int_of_time 1000%Q)) None.
Proof.
  split; [reflexivity|].
  exact (proj1
           (refresh_stores_manifest Demo.cfg serving_1_16_1 Demo.b64decode_utf8
              Demo.yaml_version false 1000%Q initial_world
              {| unchanged := false; fetched_etag := Some "W/abc";
                 pubspec_text := Some ("version: 1.16.1+3" ++ Demo.nl) |}
              ("version: 1.16.1+3" ++ Demo.nl) "1.16.1" (Some 3) "1.16.1+3"
              eq_refl eq_refl eq_refl eq_refl eq_refl)).
Defined.

Lemma check_requires_current_witness :
  blank "   " = true
  /\ check Demo.cfg serving_1_16_1 Demo.b64decode_utf8 Demo.yaml_version
       (Some "   ") 1000%Q initial_world
     = (inr ([("ok", JBool false);
              ("error", JStr "Missing 'current' query param")], 400),
        initial_world).
Proof.
  split; [reflexivity|].
  exact (check_requires_current Demo.cfg serving_1_16_1 Demo.b64decode_utf8
           Demo.yaml_version (Some "   ") 1000%Q initial_world
           (or_intror (ex_intro _ "   " (conj eq_refl eq_refl)))).
Defined.

Lemma check_without_latest_witness :
  parse_version "not-a-version" = inl (invalid_version_format "not-a-version")
  /\ status_of (fst (check Demo.cfg Demo.offline Demo.b64decode_utf8
                       Demo.yaml_version (Some "not-a-version") 1000%Q
                       initial_world))
     = Some 502.
Proof.
  split; [reflexivity|].
  exact (f_equal (fun x => status_of (fst x))
           (check_without_latest Demo.cfg Demo.offline Demo.b64decode_utf8
              Demo.yaml_version (Some "not-a-version") 1000%Q initial_world
              eq_refl eq_refl)).
Defined.

Lemma version_force_flag_witness :
  Some "true" <> Some "1"
  /\ snd (version Demo.cfg Demo.offline Demo.b64decode_utf8 Demo.yaml_version
            (Some "true") 1010%Q (Demo.world Demo.populated))
     = Demo.world Demo.populated.
Proof.
  assert (H : Some "true" <> Some "1") by discriminate.
  split; [exact H|].
  exact (proj1 (proj1
           (version_force_flag Demo.cfg Demo.offline Demo.b64decode_utf8
              Demo.yaml_version (Some "true") 1010%Q (Demo.world Demo.populated))
           H eq_refl eq_refl)).
Defined.

Lemma world_at_1000_reachable :
  reachable Demo.cfg serving_1_16_1 Demo.b64decode_utf8 Demo.yaml_version
    world_at_1000.
Proof. apply reachable_version. apply reachable_start. Qed.

Lemma reachable_cache_consistent_witness :
  w_cache world_at_1000 = Demo.populated
  /\ cache_consistent (w_cache world_at_1000).
Proof.
  split; [reflexivity|].
  exact (proj1 (reachable_cache_consistent Demo.cfg serving_1_16_1
                  Demo.b64decode_utf8 Demo.yaml_version world_at_1000
                  (reachable_version _ _ _ _ _ None 1000%Q
                     (reachable_start _ _ _ _)))).
Defined.

Lemma etag_is_revalidated_witness :
  header "If-None-Match"
    (headers (fetch_request Demo.cfg
                (w_cache (snd (_refresh_cache Demo.cfg serving_1_16_1
                                 Demo.b64decode_utf8 Demo.yaml_version false 1000%Q
                                 initial_world)))))
  = Some "W/abc".
Proof.
  exact (proj2 (etag_is_revalidated Demo.cfg serving_1_16_1 Demo.b64decode_utf8
                  Demo.yaml_version)
           false 1000%Q initial_world
           {| unchanged := false; fetched_etag := Some "W/abc";
              pubspec_text := Some ("version: 1.16.1+3" ++ Demo.nl) |}
           ("1.16.1", Some 3, "1.16.1+3") eq_refl eq_refl eq_refl eq_refl).
Defined.

Lemma version_changes_only_on_new_content_witness :
  Cache.version (w_cache world_at_1000) <> Cache.version (w_cache initial_world)
  /\ cache_hit false 1000%Q (w_cache initial_world) = false.
Proof.
  assert (H : Cache.version (w_cache world_at_1000)
              <> Cache.version (w_cache initial_world)) by discriminate.
  split; [exact H|].
  exact (proj1 (version_changes_only_on_new_content Demo.cfg serving_1_16_1
                  Demo.b64decode_utf8 Demo.yaml_version false 1000%Q initial_world
                  (or_introl H))).
Defined.

Lemma upstream_error_is_recorded_witness :
  status_code (Demo.status_response 503 "Service Unavailable") <> 200
  /\ Cache.error
       (w_cache (snd (_refresh_cache Demo.cfg
                        (Demo.always (inr (Demo.status_response 503 "Service Unavailable")))
                        Demo.b64decode_utf8 Demo.yaml_version false 2000%Q
                        (Demo.world Demo.populated))))
     = Some ("GitHub API error: " ++ str_of_int 503 ++ " - "
             ++ prefix_slice 300 "Service Unavailable").
Proof.
  assert (H : status_code (Demo.status_response 503 "Service Unavailable") <> 200)
    by discriminate.
  assert (H' : status_code (Demo.status_response 503 "Service Unavailable") <> 304)
    by discriminate.
  split; [exact H|].
  exact (proj1 (upstream_error_is_recorded Demo.cfg
                  (Demo.always (inr (Demo.status_response 503 "Service Unavailable")))
                  Demo.b64decode_utf8 Demo.yaml_version false 2000%Q
                  (Demo.world Demo.populated)
                  (Demo.status_response 503 "Service Unavailable")
                  eq_refl eq_refl eq_refl H (or_introl H'))).
Defined.

Lemma check_equal_versions_witness :
  parse_version "01.16.1 + 3" = inr (1, 16, 1, 3)
  /\ check Demo.cfg Demo.offline Demo.b64decode_utf8 Demo.yaml_version
       (Some "01.16.1 + 3") 1010%Q (Demo.world Demo.populated)
     = (inr ([("ok", JBool true);
              ("update_available", JBool false);
              ("current", JStr "01.16.1 + 3");
              ("latest", JStr "1.16.1+3")], 200),
        Demo.world Demo.populated).
Proof.
  split; [reflexivity|].
  exact (check_equal_versions Demo.cfg Demo.offline Demo.b64decode_utf8
           Demo.yaml_version (Some "01.16.1 + 3") 1010%Q (Demo.world Demo.populated)
           "1.16.1+3" (1, 16, 1, 3) eq_refl eq_refl eq_refl eq_refl eq_refl).
Defined.

Lemma cached_build_matches_comparator_witness :
  Cache.raw_version (w_cache world_at_1000) = Some "1.16.1+3"
  /\ (Cache.build (w_cache world_at_1000) = Some 3
      \/ (Cache.build (w_cache world_at_1000) = None /\ 3 = 0)).
Proof.
  split; [reflexivity|].
  exact (proj2 (cached_build_matches_comparator Demo.cfg serving_1_16_1
                  Demo.b64decode_utf8 Demo.yaml_version world_at_1000
                  (reachable_version _ _ _ _ _ None 1000%Q
                     (reachable_start _ _ _ _)))
           "1.16.1+3" 1 16 1 3 eq_refl eq_refl).
Defined.

Lemma check_ready_when_version_cached_witness :
  version_cached (w_cache world_at_1000) = true
  /\ snd (check Demo.cfg serving_1_16_1 Demo.b64decode_utf8 Demo.yaml_version
            (Some "1.16.0") 1010%Q world_at_1000)
     = world_at_1000.
Proof.
  split; [reflexivity|].
  exact (proj1 (check_ready_when_version_cached Demo.cfg serving_1_16_1
                  Demo.b64decode_utf8 Demo.yaml_version (Some "1.16.0") 1010%Q
                  world_at_1000
                  (reachable_version _ _ _ _ _ None 1000%Q
                     (reachable_start _ _ _ _))
                  eq_refl eq_refl eq_refl)).
Defined.
